(** * A three-state circuit breaker

    Shallow embedding of package [circuit_breaker] (the file that declares
    [State], [Counts], [CircuitBreaker], [NewCircuitBreaker] and [Execute])
    together with the properties its specification states about it.

    Conventions of the embedding.
    - [uint32] fields are integers of [Z]; every [++] is written with its
      wrap-around modulo 2^32 ([incr32]).
    - [time.Time] and [time.Duration] are integers of [Z] counting
      nanoseconds on one time line; the zero [time.Time{}] is [0], and
      [Add] is exact (no saturation at the ends of the time line).
    - The mutex serialises the calls of [Execute]; a run of the guard is
      therefore a list of calls executed one after the other.
    - [time.Now()] is read at two places of [Execute]; both readings are
      inputs of a call ([Clock]).
    - The three caller-supplied functions ([req], [readyToTrip],
      [onStateChange]) are opaque.  Every invocation of one of them is
      recorded as an [Event]; the events of one call are returned in the
      order in which they happen.
    - [Execute] is the method for an action that returns its pair.
      [ExecuteAny] is the whole method: it adds the path on which [req()]
      panics, the deferred [Unlock] releasing a guard on which the request
      is counted and no outcome is recorded.  [readyToTrip] and
      [onStateChange] are taken to return. *)

From Stdlib Require Import ZArith List String Bool Lia.
From Stdlib Require Import DecimalString DecimalN DecimalPos.
Import ListNotations.
Local Open Scope Z_scope.

(** ** Machine integers and time *)

Definition two32 : Z := 4294967296.

Definition wrap32 (z : Z) : Z := z mod two32.

(** [x++] on a [uint32]. *)
Definition incr32 (z : Z) : Z := wrap32 (z + 1).

(** [x + y] on two [uint32]. *)
Definition add32 (x y : Z) : Z := wrap32 (x + y).

Definition two63 : Z := 9223372036854775808.

(** A value brought back into [int64]. *)
Definition wrap64 (z : Z) : Z := (z + two63) mod (2 * two63) - two63.

(** [-d] on an [int64]: [math.MinInt64] is its own negation. *)
Definition neg64 (d : Z) : Z := wrap64 (- d).

Definition Time : Type := Z.
Definition Duration : Type := Z.

(** [time.Time{}] *)
Definition zeroTime : Time := 0.

(** [t.Before(u)]: strictly earlier. *)
Definition Before (t u : Time) : bool := t <? u.

(** [t.Add(d)] *)
Definition Add (t : Time) (d : Duration) : Time := t + d.

(** [t.IsZero()] *)
Definition IsZero (t : Time) : bool := t =? zeroTime.

Definition Second : Duration := 1000000000.

(** ** States *)

Inductive State : Type :=
| StateClosed
| StateOpen
| StateHalfOpen.

Definition State_eqb (a b : State) : bool :=
  match a, b with
  | StateClosed, StateClosed => true
  | StateOpen, StateOpen => true
  | StateHalfOpen, StateHalfOpen => true
  | _, _ => false
  end.

Definition State_String (s : State) : string :=
  match s with
  | StateClosed => "closed"
  | StateHalfOpen => "half-open"
  | StateOpen => "open"
  end.

Definition defaultConsecutiveFailures : Z := 5.
Definition defaultTimeout : Duration := 60 * Second.

(** ** Errors and results *)

(** Go's [error] values: the two package-level sentinels and every other
    error, told apart by its message. *)
Inductive error : Type :=
| ErrTooManyRequests
| ErrOpenState
| ErrOther (msg : string).

(** [interface{}]: [nil] or some boxed value. *)
Inductive iface : Type :=
| Nil
| Box (payload : string).

(** What a [func() (interface{}, error)] returns; [None] is a [nil] error. *)
Definition Outcome : Type := (iface * option error)%type.

Definition is_sentinel (e : option error) : bool :=
  match e with
  | Some ErrTooManyRequests => true
  | Some ErrOpenState => true
  | _ => false
  end.

(** ** Counts *)

Record Counts : Type := mkCounts {
  Requests : Z;
  TotalSuccesses : Z;
  TotalFailures : Z;
  ConsecutiveSuccesses : Z;
  ConsecutiveFailures : Z
}.

(** [Counts{}] *)
Definition zeroCounts : Counts := mkCounts 0 0 0 0 0.

Definition Counts_onRequest (c : Counts) : Counts :=
  mkCounts (incr32 (Requests c)) (TotalSuccesses c) (TotalFailures c)
           (ConsecutiveSuccesses c) (ConsecutiveFailures c).

Definition Counts_onSuccess (c : Counts) : Counts :=
  mkCounts (Requests c) (incr32 (TotalSuccesses c)) (TotalFailures c)
           (incr32 (ConsecutiveSuccesses c)) 0.

Definition Counts_onFailure (c : Counts) : Counts :=
  mkCounts (Requests c) (TotalSuccesses c) (incr32 (TotalFailures c))
           0 (incr32 (ConsecutiveFailures c)).

Definition Counts_reset (c : Counts) : Counts := mkCounts 0 0 0 0 0.

(** ** Configuration and guard *)

Definition TripPredicate : Type := Counts -> bool.
Definition StateChangeHook : Type := string -> State -> State -> unit.

Record Config : Type := mkConfig {
  Name : string;
  RequestThreshold : Z;
  Timeout : Duration;
  ReadyToTrip : option TripPredicate;
  OnStateChange : option StateChangeHook
}.

(** The guard without its mutex. *)
Record CircuitBreaker : Type := mkCB {
  name : string;
  requestThreshold : Z;
  timeout : Duration;
  readyToTrip : TripPredicate;
  onStateChange : option StateChangeHook;
  state : State;
  counts : Counts;
  expiredAt : Time
}.

Definition set_state (s : State) (cb : CircuitBreaker) : CircuitBreaker :=
  mkCB (name cb) (requestThreshold cb) (timeout cb) (readyToTrip cb)
       (onStateChange cb) s (counts cb) (expiredAt cb).

Definition set_counts (c : Counts) (cb : CircuitBreaker) : CircuitBreaker :=
  mkCB (name cb) (requestThreshold cb) (timeout cb) (readyToTrip cb)
       (onStateChange cb) (state cb) c (expiredAt cb).

Definition set_expiredAt (t : Time) (cb : CircuitBreaker) : CircuitBreaker :=
  mkCB (name cb) (requestThreshold cb) (timeout cb) (readyToTrip cb)
       (onStateChange cb) (state cb) (counts cb) t.

Definition defaultReadyToTrip (c : Counts) : bool :=
  defaultConsecutiveFailures <? ConsecutiveFailures c.

Definition NewCircuitBreaker (cfg : Config) : CircuitBreaker :=
  mkCB (Name cfg)
       (RequestThreshold cfg)
       (if Timeout cfg =? 0 then defaultTimeout else Timeout cfg)
       (match ReadyToTrip cfg with
        | Some p => p
        | None => defaultReadyToTrip
        end)
       (OnStateChange cfg)
       StateClosed
       zeroCounts
       zeroTime.

(** ** Calls of the opaque functions *)

(** The mutable fields of the guard as they are at some point of a call. *)
Record Snapshot : Type := mkSnapshot {
  seen_state : State;
  seen_counts : Counts;
  seen_expiredAt : Time
}.

Definition snapshot (cb : CircuitBreaker) : Snapshot :=
  mkSnapshot (state cb) (counts cb) (expiredAt cb).

Inductive Event : Type :=
| CallReq
    (* req() *)
| CallReadyToTrip (c : Counts)
    (* cb.readyToTrip(c) *)
| CallOnStateChange (nm : string) (from to : State) (seen : Snapshot).
    (* cb.onStateChange(nm, from, to), the guard being [seen] at that time *)

Definition is_CallReq (e : Event) : bool :=
  match e with CallReq => true | _ => false end.

Definition is_CallReadyToTrip (e : Event) : bool :=
  match e with CallReadyToTrip _ => true | _ => false end.

Definition is_CallOnStateChange (e : Event) : bool :=
  match e with CallOnStateChange _ _ _ _ => true | _ => false end.

Definition count_events (p : Event -> bool) (evs : list Event) : nat :=
  List.length (filter p evs).

(** ** Methods of the guard *)

Definition setState (s : State) (cb : CircuitBreaker)
  : CircuitBreaker * list Event :=
  if State_eqb (state cb) s then (cb, [])
  else
    let prev := state cb in
    let cb1 := set_state s cb in
    let notified :=
      match onStateChange cb1 with
      | Some _ => [CallOnStateChange (name cb1) prev s (snapshot cb1)]
      | None => []
      end in
    (set_counts (Counts_reset (counts cb1)) cb1, notified).

Definition onSuccess (s : State) (cb : CircuitBreaker)
  : CircuitBreaker * list Event :=
  match s with
  | StateClosed => (set_counts (Counts_onSuccess (counts cb)) cb, [])
  | StateHalfOpen =>
      let cb1 := set_counts (Counts_onSuccess (counts cb)) cb in
      if requestThreshold cb1 <=? ConsecutiveSuccesses (counts cb1)
      then setState StateClosed cb1
      else (cb1, [])
  | StateOpen => (cb, [])
  end.

Definition onFailure (now : Time) (s : State) (cb : CircuitBreaker)
  : CircuitBreaker * list Event :=
  match s with
  | StateClosed =>
      let cb1 := set_counts (Counts_onFailure (counts cb)) cb in
      if readyToTrip cb1 (counts cb1)
      then
        let '(cb2, evs) :=
          setState StateOpen (set_expiredAt (Add now (timeout cb1)) cb1) in
        (cb2, CallReadyToTrip (counts cb1) :: evs)
      else (cb1, [CallReadyToTrip (counts cb1)])
  | StateHalfOpen =>
      setState StateOpen (set_expiredAt (Add now (timeout cb)) cb)
  | StateOpen => (cb, [])
  end.

(** The two readings of [time.Now()] a call of [Execute] can make: the one
    of the deadline check and the one of [onFailure]. *)
Record Clock : Type := mkClock {
  now_entry : Time;
  now_outcome : Time
}.

(** Lines 134-137 of [Execute]: the lazy move from open to half-open. *)
Definition checkExpiry (now : Time) (cb : CircuitBreaker)
  : CircuitBreaker * list Event :=
  if State_eqb (state cb) StateOpen && Before (expiredAt cb) now
  then setState StateHalfOpen (set_expiredAt zeroTime cb)
  else (cb, []).

(** Lines 139-143 of [Execute]: the error of an early return, if any. *)
Definition admission (cb : CircuitBreaker) : option error :=
  if State_eqb (state cb) StateOpen then Some ErrOpenState
  else if State_eqb (state cb) StateHalfOpen
          && (requestThreshold cb <=? Requests (counts cb))
  then Some ErrTooManyRequests
  else None.

Record Exec : Type := mkExec {
  ret : Outcome;
  after : CircuitBreaker;
  calls : list Event
}.

Definition Execute (clk : Clock) (req : unit -> Outcome) (cb : CircuitBreaker)
  : Exec :=
  let '(cb1, evs1) := checkExpiry (now_entry clk) cb in
  match admission cb1 with
  | Some e => mkExec (Nil, Some e) cb1 evs1
  | None =>
      let cb2 := set_counts (Counts_onRequest (counts cb1)) cb1 in
      let '(result, err) := req tt in
      let '(cb3, evs3) :=
        match err with
        | Some _ => onFailure (now_outcome clk) (state cb2) cb2
        | None => onSuccess (state cb2) cb2
        end in
      mkExec (result, err) cb3 (evs1 ++ CallReq :: evs3)
  end.

(** ** Runs *)

Record Call : Type := mkCall {
  clock : Clock;
  action : unit -> Outcome
}.

Definition step (cb : CircuitBreaker) (c : Call) : CircuitBreaker :=
  after (Execute (clock c) (action c) cb).

(** The guard after the calls [cs], made one after the other. *)
Definition run (cs : list Call) (cb : CircuitBreaker) : CircuitBreaker :=
  fold_left step cs cb.

(** The guard [cb] can be reached from a fresh guard of configuration
    [cfg]. *)
Definition reachable (cfg : Config) (cb : CircuitBreaker) : Prop :=
  exists cs, cb = run cs (NewCircuitBreaker cfg).

(** The state on which the admission check of a call decides. *)
Definition state_at_admission (now : Time) (cb : CircuitBreaker) : State :=
  state (fst (checkExpiry now cb)).

(** The call is let through to the action. *)
Definition admitted (now : Time) (cb : CircuitBreaker) : bool :=
  match admission (fst (checkExpiry now cb)) with
  | None => true
  | Some _ => false
  end.

(** ** Actions that panic *)

(** What a call of the action does: it returns its pair, or it panics. *)
Inductive Behaviour : Type :=
| Returns (o : Outcome)
| Panics.

(** A call of [Execute] as its caller sees it: the pair returned, or [None]
    when the panic of the action went through; the guard it leaves; the
    calls it made. *)
Record Attempt : Type := mkAttempt {
  reply : option Outcome;
  left_guard : CircuitBreaker;
  made_calls : list Event
}.

(** The whole of [Execute].  When [req()] panics the statements after it
    are not run: the request stays counted, no outcome is recorded, and the
    deferred [Unlock] releases the guard. *)
Definition ExecuteAny (clk : Clock) (req : unit -> Behaviour)
    (cb : CircuitBreaker) : Attempt :=
  let '(cb1, evs1) := checkExpiry (now_entry clk) cb in
  match admission cb1 with
  | Some e => mkAttempt (Some (Nil, Some e)) cb1 evs1
  | None =>
      let cb2 := set_counts (Counts_onRequest (counts cb1)) cb1 in
      match req tt with
      | Panics => mkAttempt None cb2 (evs1 ++ [CallReq])
      | Returns (result, err) =>
          let '(cb3, evs3) :=
            match err with
            | Some _ => onFailure (now_outcome clk) (state cb2) cb2
            | None => onSuccess (state cb2) cb2
            end in
          mkAttempt (Some (result, err)) cb3 (evs1 ++ CallReq :: evs3)
      end
  end.

Record AnyCall : Type := mkAnyCall {
  any_clock : Clock;
  any_action : unit -> Behaviour
}.

Definition step_any (cb : CircuitBreaker) (c : AnyCall) : CircuitBreaker :=
  left_guard (ExecuteAny (any_clock c) (any_action c) cb).

(** The guard after the calls [cs], the caller recovering from the panics
    that come through. *)
Definition run_any (cs : list AnyCall) (cb : CircuitBreaker) : CircuitBreaker :=
  fold_left step_any cs cb.

(** No action of [cs] panics. *)
Definition never_panics (cs : list AnyCall) : Prop :=
  Forall (fun c => any_action c tt <> Panics) cs.

(** The call of an action known to return. *)
Definition as_call (c : AnyCall) : Call :=
  mkCall (any_clock c)
         (fun u => match any_action c u with
                   | Returns o => o
                   | Panics => (Nil, None)
                   end).

Definition returning (t : Time) (req : unit -> Outcome) : AnyCall :=
  mkAnyCall (mkClock t t) (fun u => Returns (req u)).

Definition panicking (t : Time) : AnyCall :=
  mkAnyCall (mkClock t t) (fun _ => Panics).

(** ** The calls of the test file *)

Definition succeed : unit -> Outcome := fun _ => (Nil, None).

Definition errServiceError : error := ErrOther "service error".

Definition fail : unit -> Outcome := fun _ => (Nil, Some errServiceError).

Definition at_time (t : Time) (req : unit -> Outcome) : Call :=
  mkCall (mkClock t t) req.

Definition testConfig : Config :=
  mkConfig "test circuit breaker" 2 0
           (Some (fun c => defaultConsecutiveFailures <? ConsecutiveFailures c))
           None.

Definition loggingConfig (threshold : Z) : Config :=
  mkConfig "cb" threshold 0 None (Some (fun _ _ _ => tt)).

Definition fails (n : nat) (t : Time) : list Call := repeat (at_time t fail) n.

Definition tripped : CircuitBreaker :=
  run (fails 5 10 ++ [at_time 11 succeed] ++ fails 6 12)
      (NewCircuitBreaker testConfig).

Definition zeroThresholdConfig : Config :=
  mkConfig "no probes" 0 0 None None.

(** ** Invariants of the guard *)

(** The fields [Execute] never writes. *)
Definition same_settings (a b : CircuitBreaker) : Prop :=
  name a = name b /\ requestThreshold a = requestThreshold b /\
  timeout a = timeout b /\ readyToTrip a = readyToTrip b /\
  onStateChange a = onStateChange b.

(** What the counters satisfy after [n] calls: the sum of the totals, in
    [uint32] arithmetic, is the number of requests; one of the two streaks
    is zero; and as long as fewer than 2^32 calls were made no counter has
    wrapped, so that the sum is exact. *)
Definition counts_inv (n : Z) (c : Counts) : Prop :=
  0 <= TotalSuccesses c /\ 0 <= TotalFailures c /\
  add32 (TotalSuccesses c) (TotalFailures c) = Requests c /\
  (ConsecutiveSuccesses c = 0 \/ ConsecutiveFailures c = 0) /\
  (n < two32 ->
   TotalSuccesses c + TotalFailures c = Requests c /\ Requests c <= n).

(** The deadline of a reachable guard is clear whenever the guard is not
    open. *)
Definition deadline_inv (cb : CircuitBreaker) : Prop :=
  state cb <> StateOpen -> expiredAt cb = zeroTime.

(** With [requestThreshold = 0], once the guard has left closed. *)
Definition locked_out (cb : CircuitBreaker) : Prop :=
  requestThreshold cb = 0 /\ state cb <> StateClosed /\
  0 <= Requests (counts cb).

(** While the guard probes, every admitted call so far has succeeded and
    the cap is not reached. *)
Definition probing_inv (cb : CircuitBreaker) : Prop :=
  state cb = StateHalfOpen ->
  Requests (counts cb) = ConsecutiveSuccesses (counts cb) /\
  Requests (counts cb) < requestThreshold cb.

(** ** The text of a state *)

(** The [uint32] behind a state. *)
Definition State_value (s : State) : Z :=
  match s with
  | StateClosed => 0
  | StateOpen => 1
  | StateHalfOpen => 2
  end.

(** [fmt.Sprintf("%d", v)] for an unsigned [v]. *)
Definition Sprintf_d (v : Z) : string :=
  NilZero.string_of_uint (N.to_uint (Z.to_N v)).

(** [State.String] on any value of the underlying [uint32], the [default]
    branch included. *)
Definition String_of_value (v : Z) : string :=
  if v =? 0 then "closed"
  else if v =? 2 then "half-open"
  else if v =? 1 then "open"
  else "undefined state: " ++ Sprintf_d v.

(** ** Whole runs *)

(** The events of the calls [cs], in the order in which they happen. *)
Fixpoint trace (cs : list Call) (cb : CircuitBreaker) : list Event :=
  match cs with
  | [] => []
  | c :: cs' =>
      calls (Execute (clock c) (action c) cb) ++ trace cs' (step cb c)
  end.

(** What the calls [cs] return, one after the other. *)
Fixpoint replies (cs : list Call) (cb : CircuitBreaker) : list Outcome :=
  match cs with
  | [] => []
  | c :: cs' => ret (Execute (clock c) (action c) cb) :: replies cs' (step cb c)
  end.

(** The pairs (from, to) the observer was told, in order. *)
Fixpoint notified (evs : list Event) : list (State * State) :=
  match evs with
  | [] => []
  | CallOnStateChange _ from to _ :: evs' => (from, to) :: notified evs'
  | _ :: evs' => notified evs'
  end.

(** Following the notified pairs from the state [s]: each pair must leave
    the state reached so far and go to a different one. *)
Fixpoint follow (s : State) (ts : list (State * State)) : option State :=
  match ts with
  | [] => Some s
  | (a, b) :: ts' =>
      if State_eqb a s && negb (State_eqb a b) then follow b ts' else None
  end.

(** ** The helpers and the test of the test file *)

(** [pseudoSleep]: the deadline, when set, is moved by [-period], the
    negation being that of [time.Duration], an [int64]. *)
Definition pseudoSleep (period : Duration) (cb : CircuitBreaker)
  : CircuitBreaker :=
  if negb (IsZero (expiredAt cb))
  then set_expiredAt (Add (expiredAt cb) (neg64 period)) cb
  else cb.

Definition error_eqb (a b : error) : bool :=
  match a, b with
  | ErrTooManyRequests, ErrTooManyRequests => true
  | ErrOpenState, ErrOpenState => true
  | ErrOther m, ErrOther n => String.eqb m n
  | _, _ => false
  end.

Definition Counts_eqb (a b : Counts) : bool :=
  (Requests a =? Requests b) && (TotalSuccesses a =? TotalSuccesses b)
  && (TotalFailures a =? TotalFailures b)
  && (ConsecutiveSuccesses a =? ConsecutiveSuccesses b)
  && (ConsecutiveFailures a =? ConsecutiveFailures b).

(** A test in progress: the guard under test, the number of calls of
    [Execute] made so far, and whether every assertion so far held. *)
Record Test : Type := mkTest {
  guard : CircuitBreaker;
  made : nat;
  passing : bool
}.

(** [assert.X(t, ...)]: testify's [assert] records a failure and goes on. *)
Definition assert (b : bool) (t : Test) : Test :=
  mkTest (guard t) (made t) (passing t && b).

(** A call of [succeed(cb)] or [fail(cb)] whose error must satisfy
    [expect]; the [k]-th call of the test reads the clock [clks k]. *)
Definition calling (clks : nat -> Clock) (req : unit -> Outcome)
    (expect : option error -> bool) (t : Test) : Test :=
  let r := Execute (clks (made t)) req (guard t) in
  mkTest (after r) (S (made t)) (passing t && expect (snd (ret r))).

Definition sleeping (period : Duration) (t : Test) : Test :=
  mkTest (pseudoSleep period (guard t)) (made t) (passing t).

Definition is_errServiceError (e : option error) : bool :=
  match e with
  | Some e' => error_eqb errServiceError e'
  | None => false
  end.

Definition is_nil (e : option error) : bool :=
  match e with None => true | Some _ => false end.

Definition is_error (e : option error) : bool := negb (is_nil e).

Definition state_is (s : State) (t : Test) : Test :=
  assert (State_eqb s (state (guard t))) t.

Definition counts_are (c : Counts) (t : Test) : Test :=
  assert (Counts_eqb c (counts (guard t))) t.

Definition deadline_is_zero (b : bool) (t : Test) : Test :=
  assert (Bool.eqb b (IsZero (expiredAt (guard t)))) t.

Fixpoint times (n : nat) (f : Test -> Test) (t : Test) : Test :=
  match n with
  | O => t
  | S n' => times n' f (f t)
  end.

(** The statements of [TestCircuitBreaker], in order. *)
Definition test_statements (clks : nat -> Clock) : list (Test -> Test) :=
  [ times 5 (calling clks fail is_errServiceError);
    state_is StateClosed;
    counts_are (mkCounts 5 0 5 0 5);
    calling clks succeed is_nil;
    state_is StateClosed;
    counts_are (mkCounts 6 1 5 1 0);
    calling clks fail is_errServiceError;
    state_is StateClosed;
    counts_are (mkCounts 7 1 6 0 1);
    times 5 (calling clks fail is_errServiceError);
    state_is StateOpen;
    counts_are (mkCounts 0 0 0 0 0);
    deadline_is_zero false;
    calling clks succeed is_error;
    calling clks fail is_error;
    counts_are (mkCounts 0 0 0 0 0);
    sleeping (59 * Second);
    state_is StateOpen;
    sleeping (1 * Second);
    calling clks succeed is_nil;
    state_is StateHalfOpen;
    deadline_is_zero true;
    counts_are (mkCounts 1 1 0 1 0);
    calling clks fail is_errServiceError;
    state_is StateOpen;
    deadline_is_zero false;
    counts_are (mkCounts 0 0 0 0 0);
    sleeping (60 * Second);
    calling clks succeed is_nil;
    state_is StateHalfOpen;
    deadline_is_zero true;
    counts_are (mkCounts 1 1 0 1 0);
    calling clks succeed is_nil;
    state_is StateClosed;
    counts_are (mkCounts 0 0 0 0 0);
    deadline_is_zero true ].

(** Running statements one after the other. *)
Definition play (fs : list (Test -> Test)) (t : Test) : Test :=
  fold_left (fun t f => f t) fs t.

(** [TestCircuitBreaker] under the clock [clks]: whether it passes. *)
Definition TestCircuitBreaker (clks : nat -> Clock) : bool :=
  passing
    (play (test_statements clks)
       (mkTest (NewCircuitBreaker testConfig) 0 true)).

(** The guard of the test when open with deadline [t], and when probing
    with nothing counted yet. *)
Definition open_until (t : Time) : CircuitBreaker :=
  set_expiredAt t (set_state StateOpen (NewCircuitBreaker testConfig)).

Definition on_probation : CircuitBreaker :=
  set_state StateHalfOpen (NewCircuitBreaker testConfig).

(** A clock that stands still at [t]. *)
Definition frozen (t : Time) : nat -> Clock := fun _ => mkClock t t.

(** A statement that cannot mend a test that already failed. *)
Definition keeps_failure (f : Test -> Test) : Prop :=
  forall t, passing t = false -> passing (f t) = false.

(** The readings of a clock that starts after the zero time and moves on
    between any two readings, the first [n] calls fitting in [within]. *)
Definition ticking (clks : nat -> Clock) (n : nat) (within : Duration) : Prop :=
  0 < now_entry (clks 0%nat) /\
  (forall k, now_entry (clks k) < now_outcome (clks k) /\
             now_outcome (clks k) < now_entry (clks (S k))) /\
  now_outcome (clks n) <= now_entry (clks 0%nat) + within.

(** A clock that reads [t] at the entry of call [k] when one nanosecond
    passes between two readings. *)
Definition steady (t : Time) : nat -> Clock :=
  fun k => mkClock (t + 2 * Z.of_nat k) (t + 2 * Z.of_nat k + 1).

(** ** More invariants *)

(** While the guard is open its counters are zero. *)
Definition open_inv (cb : CircuitBreaker) : Prop :=
  state cb = StateOpen -> counts cb = zeroCounts.

(** While the guard probes no failure is on the counters, and every request
    counted is a success of the current streak. *)
Definition half_open_inv (cb : CircuitBreaker) : Prop :=
  state cb = StateHalfOpen ->
  TotalFailures (counts cb) = 0 /\ ConsecutiveFailures (counts cb) = 0 /\
  TotalSuccesses (counts cb) = Requests (counts cb) /\
  ConsecutiveSuccesses (counts cb) = Requests (counts cb).

(** A closed guard whose last outcome is a failure holds counters on which
    the trip predicate answered false. *)
Definition untripped_inv (cb : CircuitBreaker) : Prop :=
  state cb = StateClosed -> ConsecutiveFailures (counts cb) <> 0 ->
  readyToTrip cb (counts cb) = false.

(** Under the default predicate the streak of failures stays within the
    default limit. *)
Definition default_policy_inv (cb : CircuitBreaker) : Prop :=
  readyToTrip cb = defaultReadyToTrip /\
  0 <= ConsecutiveFailures (counts cb) <= defaultConsecutiveFailures.

(** What the counters satisfy after [n] calls when actions may panic: one
    of the two streaks is zero, and as long as fewer than 2^32 calls were
    made the outcomes recorded do not exceed the requests counted and each
    streak is at most the total of its kind. *)
Definition counts_any_inv (n : Z) (c : Counts) : Prop :=
  (ConsecutiveSuccesses c = 0 \/ ConsecutiveFailures c = 0) /\
  (n < two32 ->
   0 <= ConsecutiveSuccesses c <= TotalSuccesses c /\
   0 <= ConsecutiveFailures c <= TotalFailures c /\
   TotalSuccesses c + TotalFailures c <= Requests c /\
   Requests c <= n).

(** While the guard probes no failure is on the counters and every success
    counted belongs to the streak, panics or not. *)
Definition half_open_any_inv (cb : CircuitBreaker) : Prop :=
  state cb = StateHalfOpen ->
  TotalFailures (counts cb) = 0 /\ ConsecutiveFailures (counts cb) = 0 /\
  TotalSuccesses (counts cb) = ConsecutiveSuccesses (counts cb).

(** Every action of [cs] returns a [nil] error. *)
Definition all_succeed (cs : list Call) : Prop :=
  Forall (fun c => snd (action c tt) = None) cs.

(** Every call of [cs] is made no later than [deadline]. *)
Definition all_by (deadline : Time) (cs : list Call) : Prop :=
  Forall (fun c => now_entry (clock c) <= deadline) cs.

(** ** The scenario of the package's test *)

Example test_five_failures :
  let cb := run (fails 5 10) (NewCircuitBreaker testConfig) in
  state cb = StateClosed /\ counts cb = mkCounts 5 0 5 0 5.
Proof. vm_compute. split; reflexivity. Qed.

Example test_success_after_failures :
  let cb := run (fails 5 10 ++ [at_time 11 succeed])
                (NewCircuitBreaker testConfig) in
  state cb = StateClosed /\ counts cb = mkCounts 6 1 5 1 0.
Proof. vm_compute. split; reflexivity. Qed.

Example test_trip :
  state tripped = StateOpen /\ counts tripped = zeroCounts /\
  expiredAt tripped = 12 + 60 * Second.
Proof. vm_compute. repeat split; reflexivity. Qed.

Example test_rejected_while_open :
  ret (Execute (mkClock 13 13) succeed tripped) = (Nil, Some ErrOpenState).
Proof. reflexivity. Qed.

Example test_half_open_probe :
  let cb := run [at_time (13 + 60 * Second) succeed] tripped in
  state cb = StateHalfOpen /\ expiredAt cb = zeroTime /\
  counts cb = mkCounts 1 1 0 1 0.
Proof. vm_compute. repeat split; reflexivity. Qed.

Example test_half_open_failure :
  let cb := run [at_time (13 + 60 * Second) succeed;
                 at_time (14 + 60 * Second) fail] tripped in
  state cb = StateOpen /\ counts cb = zeroCounts /\
  expiredAt cb = 14 + 120 * Second.
Proof. vm_compute. repeat split; reflexivity. Qed.

Example test_half_open_recovery :
  let cb := run [at_time (13 + 60 * Second) succeed;
                 at_time (14 + 60 * Second) succeed] tripped in
  state cb = StateClosed /\ counts cb = zeroCounts /\
  expiredAt cb = zeroTime.
Proof. vm_compute. repeat split; reflexivity. Qed.

(** ** Elementary facts *)

Lemma State_eqb_eq (a b : State) : State_eqb a b = true <-> a = b.
Proof. destruct a, b; simpl; split; intro H; congruence. Qed.

Lemma State_eqb_refl (a : State) : State_eqb a a = true.
Proof. destruct a; reflexivity. Qed.

Lemma State_eqb_neq (a b : State) : State_eqb a b = false <-> a <> b.
Proof. destruct a, b; simpl; split; intro H; congruence. Qed.

Lemma two32_pos : 0 < two32.
Proof. reflexivity. Qed.

Lemma wrap32_range (z : Z) : 0 <= wrap32 z < two32.
Proof. unfold wrap32. apply Z.mod_pos_bound. exact two32_pos. Qed.

Lemma wrap32_small (z : Z) : 0 <= z < two32 -> wrap32 z = z.
Proof. intro H. unfold wrap32. now apply Z.mod_small. Qed.

Lemma add32_incr_l (x y : Z) : add32 (incr32 x) y = incr32 (add32 x y).
Proof.
  unfold add32, incr32, wrap32.
  rewrite Zplus_mod_idemp_l, Zplus_mod_idemp_l. f_equal. lia.
Qed.

Lemma add32_incr_r (x y : Z) : add32 x (incr32 y) = incr32 (add32 x y).
Proof.
  unfold add32, incr32, wrap32.
  rewrite Zplus_mod_idemp_r, Zplus_mod_idemp_l. f_equal. lia.
Qed.

Lemma setState_settings (s : State) (cb : CircuitBreaker) :
  same_settings cb (fst (setState s cb)).
Proof.
  unfold setState, same_settings.
  destruct (State_eqb (state cb) s); simpl; repeat split; reflexivity.
Qed.

Lemma Execute_settings clk req cb :
  same_settings cb (after (Execute clk req cb)).
Proof.
  unfold same_settings, Execute, checkExpiry, admission.
  destruct cb as [nm th tm rt hook st c ex]; simpl.
  destruct (req tt) as [result [e|]], st; simpl;
    repeat match goal with
    | |- context [if ?b then _ else _] => destruct b; simpl
    | |- context [match ?o with Some _ => _ | None => _ end] =>
        destruct o; simpl
    end; repeat split; reflexivity.
Qed.

Lemma run_app (cs ds : list Call) (cb : CircuitBreaker) :
  run (cs ++ ds) cb = run ds (run cs cb).
Proof. unfold run. apply fold_left_app. Qed.

Lemma same_settings_refl (cb : CircuitBreaker) : same_settings cb cb.
Proof. unfold same_settings; repeat split; reflexivity. Qed.

Lemma same_settings_trans (a b c : CircuitBreaker) :
  same_settings a b -> same_settings b c -> same_settings a c.
Proof.
  unfold same_settings.
  intros (H1 & H2 & H3 & H4 & H5) (I1 & I2 & I3 & I4 & I5).
  repeat split; congruence.
Qed.

Lemma run_cons (c : Call) (cs : list Call) (cb : CircuitBreaker) :
  run (c :: cs) cb = run cs (step cb c).
Proof. reflexivity. Qed.

Lemma run_settings (cs : list Call) (cb : CircuitBreaker) :
  same_settings cb (run cs cb).
Proof.
  revert cb. induction cs as [|c cs IH]; intro cb.
  - apply same_settings_refl.
  - rewrite run_cons.
    apply same_settings_trans with (b := step cb c); [|apply IH].
    apply Execute_settings.
Qed.

(** Any property of guards that holds of the fresh guard and that every
    call preserves holds of every reachable guard. *)
Lemma reachable_ind (cfg : Config) (P : CircuitBreaker -> Prop) :
  P (NewCircuitBreaker cfg) ->
  (forall cb c, P cb -> P (step cb c)) ->
  forall cb, reachable cfg cb -> P cb.
Proof.
  intros Hnew Hstep cb [cs ->]. unfold run.
  generalize (NewCircuitBreaker cfg) Hnew.
  induction cs as [|c cs IH]; intros cb0 H0; simpl; [exact H0|].
  apply IH, Hstep, H0.
Qed.

Lemma reachable_step cfg cb c : reachable cfg cb -> reachable cfg (step cb c).
Proof.
  intros [cs ->]. exists (cs ++ [c]). now rewrite run_app.
Qed.

(** ** The counters of a reachable guard *)

Lemma counts_inv_zero (n : Z) : 0 <= n -> counts_inv n zeroCounts.
Proof.
  intro Hn. unfold counts_inv; simpl.
  repeat split; try lia; try reflexivity.
Qed.

Lemma counts_inv_later (n : Z) (c : Counts) :
  counts_inv n c -> counts_inv (n + 1) c.
Proof.
  unfold counts_inv. intros (H1 & H2 & H3 & H4 & H5).
  split; [exact H1|]. split; [exact H2|]. split; [exact H3|].
  split; [exact H4|]. intro Hn. destruct H5 as [H5 H6]; lia.
Qed.

Lemma incr32_exact (z n : Z) : 0 <= z <= n -> n + 1 < two32 -> incr32 z = z + 1.
Proof.
  intros Hz Hn. unfold incr32. apply wrap32_small. lia.
Qed.

Lemma incr32_nonneg (z : Z) : 0 <= incr32 z.
Proof. unfold incr32. apply wrap32_range. Qed.

Lemma counts_inv_success (n : Z) (c : Counts) :
  counts_inv n c -> counts_inv (n + 1) (Counts_onSuccess (Counts_onRequest c)).
Proof.
  unfold counts_inv. intros (H1 & H2 & H3 & H4 & H5). simpl.
  split; [apply incr32_nonneg|]. split; [exact H2|].
  split; [rewrite add32_incr_l; now rewrite H3|].
  split; [now right|]. intro Hn.
  destruct H5 as [H5 H6]; [lia|].
  rewrite (incr32_exact (TotalSuccesses c) n), (incr32_exact (Requests c) n);
    lia.
Qed.

Lemma counts_inv_failure (n : Z) (c : Counts) :
  counts_inv n c -> counts_inv (n + 1) (Counts_onFailure (Counts_onRequest c)).
Proof.
  unfold counts_inv. intros (H1 & H2 & H3 & H4 & H5). simpl.
  split; [exact H1|]. split; [apply incr32_nonneg|].
  split; [rewrite add32_incr_r; now rewrite H3|].
  split; [now left|]. intro Hn.
  destruct H5 as [H5 H6]; [lia|].
  rewrite (incr32_exact (TotalFailures c) n), (incr32_exact (Requests c) n);
    lia.
Qed.

(** The counters a call can leave behind. *)
Lemma Execute_counts clk req cb :
  let c := counts cb in
  let c' := counts (after (Execute clk req cb)) in
  c' = c \/ c' = zeroCounts \/
  c' = Counts_onSuccess (Counts_onRequest c) \/
  c' = Counts_onFailure (Counts_onRequest c) \/
  c' = Counts_onSuccess (Counts_onRequest zeroCounts) \/
  c' = Counts_onFailure (Counts_onRequest zeroCounts).
Proof.
  unfold Execute, checkExpiry, admission.
  destruct cb as [nm th tm rt hook st c ex]; simpl.
  destruct (req tt) as [result [e|]], st; simpl;
    repeat match goal with
    | |- context [if ?b then _ else _] => destruct b; simpl
    end; tauto.
Qed.

Lemma step_counts_inv (n : Z) (cb : CircuitBreaker) (c : Call) :
  0 <= n -> counts_inv n (counts cb) -> counts_inv (n + 1) (counts (step cb c)).
Proof.
  intros Hn H. unfold step.
  destruct (Execute_counts (clock c) (action c) cb)
    as [E|[E|[E|[E|[E|E]]]]]; rewrite E.
  - now apply counts_inv_later.
  - apply counts_inv_zero; lia.
  - now apply counts_inv_success.
  - now apply counts_inv_failure.
  - apply counts_inv_success, counts_inv_zero, Hn.
  - apply counts_inv_failure, counts_inv_zero, Hn.
Qed.

Lemma run_counts_inv (cs : list Call) (n : Z) (cb : CircuitBreaker) :
  0 <= n -> counts_inv n (counts cb) ->
  counts_inv (n + Z.of_nat (List.length cs)) (counts (run cs cb)).
Proof.
  revert n cb. induction cs as [|c cs IH]; intros n cb Hn H.
  - simpl. now rewrite Z.add_0_r.
  - rewrite run_cons.
    replace (n + Z.of_nat (List.length (c :: cs)))
      with ((n + 1) + Z.of_nat (List.length cs))
      by (simpl List.length; lia).
    apply IH; [lia|]. now apply step_counts_inv.
Qed.

Lemma reachable_counts (cfg : Config) (cs : list Call) :
  let c := counts (run cs (NewCircuitBreaker cfg)) in
  add32 (TotalSuccesses c) (TotalFailures c) = Requests c /\
  (ConsecutiveSuccesses c = 0 \/ ConsecutiveFailures c = 0) /\
  (Z.of_nat (List.length cs) < two32 ->
   TotalSuccesses c + TotalFailures c = Requests c).
Proof.
  pose proof (run_counts_inv cs 0 (NewCircuitBreaker cfg) (Z.le_refl 0)
                (counts_inv_zero 0 (Z.le_refl 0))) as H.
  simpl in H. destruct H as (_ & _ & H3 & H4 & H5).
  cbv zeta. repeat split; try assumption.
  intro Hlen. now destruct (H5 Hlen).
Qed.

(** ** The deadline check and the admission check *)

Lemma Execute_rejected clk req cb e :
  admission (fst (checkExpiry (now_entry clk) cb)) = Some e ->
  Execute clk req cb =
    mkExec (Nil, Some e) (fst (checkExpiry (now_entry clk) cb))
           (snd (checkExpiry (now_entry clk) cb)).
Proof.
  intro H. unfold Execute.
  destruct (checkExpiry (now_entry clk) cb) as [cb1 evs1]; simpl in *.
  now rewrite H.
Qed.

Lemma Execute_admitted clk req cb :
  admission (fst (checkExpiry (now_entry clk) cb)) = None ->
  let cb1 := fst (checkExpiry (now_entry clk) cb) in
  let cb2 := set_counts (Counts_onRequest (counts cb1)) cb1 in
  let out :=
    match snd (req tt) with
    | Some _ => onFailure (now_outcome clk) (state cb2) cb2
    | None => onSuccess (state cb2) cb2
    end in
  Execute clk req cb =
    mkExec (req tt) (fst out)
           (snd (checkExpiry (now_entry clk) cb) ++ CallReq :: snd out).
Proof.
  intro H. unfold Execute.
  destruct (checkExpiry (now_entry clk) cb) as [cb1 evs1]; simpl in *.
  rewrite H. destruct (req tt) as [result [e|]]; simpl.
  - now destruct (onFailure _ _ _).
  - now destruct (onSuccess _ _).
Qed.

Lemma checkExpiry_not_open now cb :
  state cb <> StateOpen -> checkExpiry now cb = (cb, []).
Proof.
  intro H. unfold checkExpiry.
  apply State_eqb_neq in H. now rewrite H.
Qed.

Lemma checkExpiry_waiting now cb :
  now <= expiredAt cb -> checkExpiry now cb = (cb, []).
Proof.
  intro H. unfold checkExpiry, Before.
  assert (E : (expiredAt cb <? now) = false) by (apply Z.ltb_ge; exact H).
  rewrite E. now rewrite andb_false_r.
Qed.

Lemma checkExpiry_elapsed now cb :
  state cb = StateOpen -> expiredAt cb < now ->
  checkExpiry now cb =
    (mkCB (name cb) (requestThreshold cb) (timeout cb) (readyToTrip cb)
          (onStateChange cb) StateHalfOpen zeroCounts zeroTime,
     match onStateChange cb with
     | Some _ =>
         [CallOnStateChange (name cb) StateOpen StateHalfOpen
            (mkSnapshot StateHalfOpen (counts cb) zeroTime)]
     | None => []
     end).
Proof.
  intros Hs Hlt. unfold checkExpiry, Before.
  assert (E : (expiredAt cb <? now) = true) by (apply Z.ltb_lt; exact Hlt).
  rewrite Hs, E. simpl. unfold setState. simpl. rewrite Hs. simpl.
  reflexivity.
Qed.

(** C2, as stated, fails when the call is made exactly at the deadline:
    the guard [tripped] of the test is open with deadline 60000000012, and a
    call at time 60000000012 leaves it open, deadline and counters
    untouched, and is rejected with [ErrOpenState]. *)
Lemma C2_counterexample_at_deadline :
  state tripped = StateOpen /\
  expiredAt tripped = 60000000012 /\
  expiredAt tripped <= 60000000012 /\
  state (fst (checkExpiry 60000000012 tripped)) = StateOpen /\
  expiredAt (fst (checkExpiry 60000000012 tripped)) <> zeroTime /\
  Execute (mkClock 60000000012 60000000012) succeed tripped
    = mkExec (Nil, Some ErrOpenState) tripped [].
Proof.
  vm_compute. repeat split; try reflexivity; intro H; discriminate H.
Qed.

(** C6.  While the guard is open and the clock has not reached the
    deadline, [Execute] returns [ErrOpenState], does not call the action
    (nor any other caller-supplied function) and leaves the guard as it
    was: state, counters and deadline. *)
Theorem C6_open_rejects (clk : Clock) (req : unit -> Outcome)
    (cb : CircuitBreaker) :
  state cb = StateOpen ->
  now_entry clk < expiredAt cb ->
  ret (Execute clk req cb) = (Nil, Some ErrOpenState) /\
  calls (Execute clk req cb) = [] /\
  count_events is_CallReq (calls (Execute clk req cb)) = 0%nat /\
  after (Execute clk req cb) = cb /\
  state (after (Execute clk req cb)) = StateOpen /\
  counts (after (Execute clk req cb)) = counts cb /\
  expiredAt (after (Execute clk req cb)) = expiredAt cb.
Proof.
  intros Hs Hlt.
  assert (Hle : now_entry clk <= expiredAt cb) by lia.
  assert (E : Execute clk req cb = mkExec (Nil, Some ErrOpenState) cb []).
  { rewrite (Execute_rejected clk req cb ErrOpenState);
      rewrite (checkExpiry_waiting _ _ Hle); simpl; [reflexivity|].
    unfold admission. now rewrite Hs. }
  rewrite E. simpl. repeat split; try reflexivity. exact Hs.
Qed.

Lemma C6_open_rejects_witness :
  state tripped = StateOpen /\
  13 < expiredAt tripped /\
  ret (Execute (mkClock 13 13) fail tripped) = (Nil, Some ErrOpenState) /\
  after (Execute (mkClock 13 13) fail tripped) = tripped.
Proof.
  assert (Hs : state tripped = StateOpen) by reflexivity.
  assert (Hlt : now_entry (mkClock 13 13) < expiredAt tripped) by reflexivity.
  destruct (C6_open_rejects (mkClock 13 13) fail tripped Hs Hlt)
    as (H1 & _ & _ & H4 & _).
  exact (conj Hs (conj Hlt (conj H1 H4))).
Defined.

(** ** Outcomes of admitted calls *)

Lemma admitted_true now cb :
  admitted now cb = true <-> admission (fst (checkExpiry now cb)) = None.
Proof.
  unfold admitted. destruct (admission _); split; intro H; congruence.
Qed.

(** A call is admitted exactly when the state on which the admission check
    decides is not open and is not half-open with the cap reached. *)
Lemma admitted_spec now cb :
  admitted now cb = true <->
  state_at_admission now cb <> StateOpen /\
  ~ (state_at_admission now cb = StateHalfOpen /\
     requestThreshold cb <= Requests (counts (fst (checkExpiry now cb)))).
Proof.
  rewrite admitted_true. unfold state_at_admission.
  assert (T : requestThreshold (fst (checkExpiry now cb)) = requestThreshold cb).
  { unfold checkExpiry.
    destruct (State_eqb (state cb) StateOpen && Before (expiredAt cb) now);
      [|reflexivity].
    symmetry. apply (setState_settings StateHalfOpen (set_expiredAt zeroTime cb)). }
  unfold admission. rewrite T.
  destruct (state (fst (checkExpiry now cb))); simpl.
  - split; [intros _; split; [discriminate|intros [H _]; discriminate]|reflexivity].
  - split; [discriminate|intros [H _]; congruence].
  - destruct (Z.leb_spec (requestThreshold cb)
                (Requests (counts (fst (checkExpiry now cb))))) as [L|L].
    + split; [discriminate|intros [_ H]; exfalso; apply H; now split].
    + split; [intros _; split; [discriminate|intros [_ H]; lia]|reflexivity].
Qed.

(** Neither [setState] nor the deadline check calls the trip predicate or
    the action. *)
Lemma setState_events s cb e :
  In e (snd (setState s cb)) -> is_CallOnStateChange e = true.
Proof.
  unfold setState. destruct (State_eqb (state cb) s); simpl; [tauto|].
  destruct (onStateChange cb); simpl; [|tauto].
  intros [<-|[]]. reflexivity.
Qed.

Lemma checkExpiry_events now cb e :
  In e (snd (checkExpiry now cb)) -> is_CallOnStateChange e = true.
Proof.
  unfold checkExpiry.
  destruct (State_eqb (state cb) StateOpen && Before (expiredAt cb) now).
  - apply setState_events.
  - simpl. tauto.
Qed.

Lemma onSuccess_events s cb e :
  In e (snd (onSuccess s cb)) -> is_CallOnStateChange e = true.
Proof.
  unfold onSuccess. destruct s; simpl; try tauto.
  destruct (_ <=? _); [apply setState_events|simpl; tauto].
Qed.

(** What [setState] does on a real transition. *)
Lemma setState_changes s cb :
  state cb <> s ->
  setState s cb =
    (mkCB (name cb) (requestThreshold cb) (timeout cb) (readyToTrip cb)
          (onStateChange cb) s zeroCounts (expiredAt cb),
     match onStateChange cb with
     | Some _ =>
         [CallOnStateChange (name cb) (state cb) s
            (mkSnapshot s (counts cb) (expiredAt cb))]
     | None => []
     end).
Proof.
  intro H. unfold setState. apply State_eqb_neq in H. rewrite H.
  reflexivity.
Qed.

Lemma setState_same s cb : state cb = s -> setState s cb = (cb, []).
Proof.
  intro H. unfold setState. rewrite H, State_eqb_refl. reflexivity.
Qed.

(** C3.  An admitted call whose action fails while the guard is closed
    records the failure, then calls [readyToTrip] once, on the counters so
    updated; the guard goes to open, with [expiredAt = now + timeout] and
    the counters reset, if and only if the predicate answered true, and
    otherwise stays closed with the failure recorded.  In no call is
    [readyToTrip] called unless the admission state is closed and the action
    returned an error. *)
Theorem C3_closed_failure (clk : Clock) (req : unit -> Outcome)
    (cb : CircuitBreaker) :
  (state cb = StateClosed -> snd (req tt) <> None ->
   let c1 := Counts_onFailure (Counts_onRequest (counts cb)) in
   let r := Execute clk req cb in
   ret r = req tt /\
   filter is_CallReadyToTrip (calls r) = [CallReadyToTrip c1] /\
   (state (after r) = StateOpen <-> readyToTrip cb c1 = true) /\
   (readyToTrip cb c1 = true ->
    state (after r) = StateOpen /\
    expiredAt (after r) = Add (now_outcome clk) (timeout cb) /\
    counts (after r) = zeroCounts) /\
   (readyToTrip cb c1 = false ->
    state (after r) = StateClosed /\
    expiredAt (after r) = expiredAt cb /\
    counts (after r) = c1)) /\
  (forall c, In (CallReadyToTrip c) (calls (Execute clk req cb)) ->
   state_at_admission (now_entry clk) cb = StateClosed /\
   admitted (now_entry clk) cb = true /\
   snd (req tt) <> None).
Proof.
  split.
  - intros Hs Herr.
    assert (Hno : state cb <> StateOpen) by congruence.
    assert (Hadm : admission (fst (checkExpiry (now_entry clk) cb)) = None).
    { rewrite (checkExpiry_not_open _ _ Hno). unfold admission. simpl.
      rewrite Hs. reflexivity. }
    cbv zeta. rewrite (Execute_admitted clk req cb Hadm).
    rewrite (checkExpiry_not_open _ _ Hno). simpl.
    destruct (snd (req tt)) as [e|]; [clear Herr|congruence].
    rewrite Hs. unfold onFailure. simpl.
    destruct (readyToTrip cb (Counts_onFailure (Counts_onRequest (counts cb))))
      eqn:Etrip.
    + rewrite setState_changes by (simpl; congruence). simpl.
      split; [reflexivity|]. split.
      { destruct (onStateChange cb); reflexivity. }
      split; [tauto|]. split; [intros _; repeat split|discriminate].
    + simpl. rewrite Hs.
      split; [reflexivity|]. split; [reflexivity|].
      split; [split; discriminate|].
      split; [discriminate|intros _; repeat split].
  - intros c Hin. unfold state_at_admission.
    destruct (admission (fst (checkExpiry (now_entry clk) cb))) as [e|] eqn:Hadm.
    + rewrite (Execute_rejected clk req cb e Hadm) in Hin. simpl in Hin.
      apply checkExpiry_events in Hin. discriminate Hin.
    + rewrite (Execute_admitted clk req cb Hadm) in Hin. simpl in Hin.
      apply in_app_or in Hin. destruct Hin as [Hin|[Hin|Hin]].
      * apply checkExpiry_events in Hin. discriminate Hin.
      * discriminate Hin.
      * assert (Hadm' := Hadm). apply admitted_true in Hadm'.
        unfold admission in Hadm.
        destruct (snd (req tt)) as [e|].
        -- destruct (state (fst (checkExpiry (now_entry clk) cb))) eqn:Es;
             simpl in Hin.
           ++ split; [reflexivity|]. split; [exact Hadm'|discriminate].
           ++ simpl in Hadm. discriminate Hadm.
           ++ unfold onFailure in Hin.
              apply setState_events in Hin. discriminate Hin.
        -- apply onSuccess_events in Hin. discriminate Hin.
Qed.

Lemma C3_closed_failure_witness :
  let cb := run (fails 5 10) (NewCircuitBreaker testConfig) in
  let r := Execute (mkClock 20 21) fail cb in
  state cb = StateClosed /\ snd (fail tt) <> None /\
  readyToTrip cb (mkCounts 6 0 6 0 6) = true /\
  filter is_CallReadyToTrip (calls r) = [CallReadyToTrip (mkCounts 6 0 6 0 6)] /\
  state (after r) = StateOpen /\
  expiredAt (after r) = 21 + 60 * Second /\
  counts (after r) = zeroCounts.
Proof.
  assert (Hs : state (run (fails 5 10) (NewCircuitBreaker testConfig))
               = StateClosed) by reflexivity.
  assert (He : snd (fail tt) <> None) by discriminate.
  assert (Ht : readyToTrip (run (fails 5 10) (NewCircuitBreaker testConfig))
                 (mkCounts 6 0 6 0 6) = true) by reflexivity.
  destruct (C3_closed_failure (mkClock 20 21) fail
              (run (fails 5 10) (NewCircuitBreaker testConfig)))
    as [H _].
  destruct (H Hs He) as (_ & H2 & _ & H4 & _).
  destruct (H4 Ht) as (H5 & H6 & H7).
  exact (conj Hs (conj He (conj Ht (conj H2 (conj H5 (conj H6 H7)))))).
Defined.

Lemma checkExpiry_settings now cb :
  same_settings cb (fst (checkExpiry now cb)).
Proof.
  unfold checkExpiry.
  destruct (State_eqb (state cb) StateOpen && Before (expiredAt cb) now).
  - apply (same_settings_trans _ (set_expiredAt zeroTime cb)).
    + unfold same_settings; repeat split; reflexivity.
    + apply setState_settings.
  - apply same_settings_refl.
Qed.

(** C4.  An admitted call whose action fails while the guard is half-open
    sets [expiredAt = now + timeout] and moves the guard to open, counters
    reset to zero, whatever the counters were; the trip predicate is not
    consulted and the action's own result is returned. *)
Theorem C4_half_open_failure (clk : Clock) (req : unit -> Outcome)
    (cb : CircuitBreaker) :
  state_at_admission (now_entry clk) cb = StateHalfOpen ->
  admitted (now_entry clk) cb = true ->
  snd (req tt) <> None ->
  let r := Execute clk req cb in
  state (after r) = StateOpen /\
  expiredAt (after r) = Add (now_outcome clk) (timeout cb) /\
  counts (after r) = zeroCounts /\
  filter is_CallReadyToTrip (calls r) = [] /\
  ret r = req tt.
Proof.
  intros Hs Hadm Herr. cbv zeta.
  apply admitted_true in Hadm. unfold state_at_admission in Hs.
  rewrite (Execute_admitted clk req cb Hadm). simpl.
  destruct (checkExpiry_settings (now_entry clk) cb) as (_ & _ & Ht & _).
  destruct (snd (req tt)) as [e|]; [clear Herr|congruence].
  rewrite Hs. unfold onFailure.
  rewrite setState_changes by (simpl; congruence). simpl.
  split; [reflexivity|]. split; [now rewrite Ht|]. split; [reflexivity|].
  split; [|reflexivity].
  rewrite filter_app. simpl.
  assert (F : forall evs,
             (forall e, In e evs -> is_CallOnStateChange e = true) ->
             filter is_CallReadyToTrip evs = []).
  { induction evs as [|x evs IH]; intro H; [reflexivity|].
    simpl. pose proof (H x (or_introl eq_refl)) as Hx.
    destruct x; try discriminate Hx. simpl.
    apply IH. intros y Hy. apply H. now right. }
  rewrite (F _ (checkExpiry_events (now_entry clk) cb)).
  destruct (onStateChange _); reflexivity.
Qed.

Lemma C4_half_open_failure_witness :
  let clk := mkClock (13 + 60 * Second) (14 + 60 * Second) in
  let r := Execute clk fail tripped in
  state_at_admission (now_entry clk) tripped = StateHalfOpen /\
  admitted (now_entry clk) tripped = true /\
  snd (fail tt) <> None /\
  state (after r) = StateOpen /\
  expiredAt (after r) = 14 + 120 * Second /\
  counts (after r) = zeroCounts.
Proof.
  assert (Hs : state_at_admission (13 + 60 * Second) tripped = StateHalfOpen)
    by reflexivity.
  assert (Ha : admitted (13 + 60 * Second) tripped = true) by reflexivity.
  assert (He : snd (fail tt) <> None) by discriminate.
  destruct (C4_half_open_failure
              (mkClock (13 + 60 * Second) (14 + 60 * Second)) fail tripped
              Hs Ha He) as (H1 & H2 & H3 & _).
  exact (conj Hs (conj Ha (conj He (conj H1 (conj H2 H3))))).
Defined.

Lemma step_deadline_inv cb c : deadline_inv cb -> deadline_inv (step cb c).
Proof.
  unfold deadline_inv, step, Execute, checkExpiry, admission.
  destruct cb as [nm th tm rt hook st cn ex]; simpl. intro H.
  destruct (action c tt) as [result [e|]], st; simpl;
    repeat match goal with
    | |- context [if ?b then _ else _] => destruct b; simpl
    end;
    try congruence; intros _;
    try reflexivity; apply H; discriminate.
Qed.

Lemma reachable_deadline_inv cfg cb : reachable cfg cb -> deadline_inv cb.
Proof.
  apply reachable_ind.
  - intros _. reflexivity.
  - intros cb0 c. apply step_deadline_inv.
Qed.

(** C5.  An admitted call whose action succeeds while a guard reached from
    a fresh one is half-open records the success; if [ConsecutiveSuccesses]
    is then at least [requestThreshold] the guard goes to closed with the
    counters reset and the deadline clear, and otherwise it stays half-open
    with the success recorded. *)
Theorem C5_half_open_success (cfg : Config) (clk : Clock)
    (req : unit -> Outcome) (cb : CircuitBreaker) :
  reachable cfg cb ->
  state_at_admission (now_entry clk) cb = StateHalfOpen ->
  admitted (now_entry clk) cb = true ->
  snd (req tt) = None ->
  let c0 := counts (fst (checkExpiry (now_entry clk) cb)) in
  let c1 := Counts_onSuccess (Counts_onRequest c0) in
  let r := Execute clk req cb in
  ret r = req tt /\
  (requestThreshold cb <= ConsecutiveSuccesses c1 ->
   state (after r) = StateClosed /\
   counts (after r) = zeroCounts /\
   expiredAt (after r) = zeroTime) /\
  (ConsecutiveSuccesses c1 < requestThreshold cb ->
   state (after r) = StateHalfOpen /\
   counts (after r) = c1 /\
   expiredAt (after r) = zeroTime).
Proof.
  intros Hreach Hs Hadm Hok. cbv zeta.
  apply admitted_true in Hadm. unfold state_at_admission in Hs.
  assert (Hz : expiredAt (fst (checkExpiry (now_entry clk) cb)) = zeroTime).
  { assert (D : deadline_inv (fst (checkExpiry (now_entry clk) cb))).
    { unfold checkExpiry.
      destruct (State_eqb (state cb) StateOpen
                && Before (expiredAt cb) (now_entry clk)) eqn:E.
      - apply andb_true_iff in E. destruct E as [E _].
        apply State_eqb_eq in E.
        rewrite setState_changes by (simpl; congruence). simpl.
        intros _. reflexivity.
      - simpl. now apply (reachable_deadline_inv cfg). }
    apply D. congruence. }
  rewrite (Execute_admitted clk req cb Hadm). simpl.
  destruct (checkExpiry_settings (now_entry clk) cb) as (_ & Hth & _).
  rewrite Hok, Hs. unfold onSuccess. simpl. rewrite <- Hth.
  split; [reflexivity|].
  destruct (Z.leb_spec (requestThreshold cb)
              (incr32 (ConsecutiveSuccesses
                         (counts (fst (checkExpiry (now_entry clk) cb))))))
    as [L|L].
  - rewrite setState_changes by (simpl; congruence). simpl.
    split; [intros _; repeat split; exact Hz|lia].
  - simpl. split; [lia|]. intros _. repeat split; assumption.
Qed.

Lemma C5_half_open_success_witness :
  let cb := run [at_time (13 + 60 * Second) succeed] tripped in
  let r := Execute (mkClock (14 + 60 * Second) 0) succeed cb in
  reachable testConfig cb /\
  state_at_admission (14 + 60 * Second) cb = StateHalfOpen /\
  admitted (14 + 60 * Second) cb = true /\
  snd (succeed tt) = None /\
  requestThreshold cb <= 2 /\
  state (after r) = StateClosed /\
  counts (after r) = zeroCounts /\
  expiredAt (after r) = zeroTime.
Proof.
  assert (Hr : reachable testConfig
                 (run [at_time (13 + 60 * Second) succeed] tripped)).
  { exists ((fails 5 10 ++ [at_time 11 succeed] ++ fails 6 12)
            ++ [at_time (13 + 60 * Second) succeed]).
    rewrite run_app. reflexivity. }
  assert (Hs : state_at_admission (14 + 60 * Second)
                 (run [at_time (13 + 60 * Second) succeed] tripped)
               = StateHalfOpen) by reflexivity.
  assert (Ha : admitted (14 + 60 * Second)
                 (run [at_time (13 + 60 * Second) succeed] tripped) = true)
    by reflexivity.
  assert (Ho : snd (succeed tt) = None) by reflexivity.
  assert (Hle : requestThreshold
                  (run [at_time (13 + 60 * Second) succeed] tripped) <= 2)
    by (vm_compute; discriminate).
  destruct (C5_half_open_success testConfig (mkClock (14 + 60 * Second) 0)
              succeed _ Hr Hs Ha Ho) as (_ & H2 & _).
  destruct (H2 Hle) as (H3 & H4 & H5).
  exact (conj Hr (conj Hs (conj Ha (conj Ho (conj Hle (conj H3 (conj H4 H5))))))).
Defined.

(** ** Transitions *)

(** C7, as the code has it.  A real transition (the new state differs from
    the current one) first commits the new state, then calls the observer,
    if one is configured, with the guard's name, the previous state and the
    new state, the guard showing the new state and the counters not yet
    reset at that time, and only then resets the five counters to zero; it
    does not touch the deadline.  Setting the state to its current value
    calls no observer and leaves the guard, counters included, as it was. *)
Theorem C7_setState_notifies_then_resets (s : State) (cb : CircuitBreaker) :
  (state cb <> s ->
   state (fst (setState s cb)) = s /\
   counts (fst (setState s cb)) = zeroCounts /\
   expiredAt (fst (setState s cb)) = expiredAt cb /\
   snd (setState s cb) =
     match onStateChange cb with
     | Some _ =>
         [CallOnStateChange (name cb) (state cb) s
            (mkSnapshot s (counts cb) (expiredAt cb))]
     | None => []
     end) /\
  (state cb = s -> setState s cb = (cb, [])).
Proof.
  split.
  - intro H. rewrite (setState_changes s cb H). simpl.
    repeat split; reflexivity.
  - apply setState_same.
Qed.

Lemma C7_setState_notifies_then_resets_witness :
  let cb := run (fails 5 10) (NewCircuitBreaker (loggingConfig 2)) in
  state cb <> StateOpen /\
  counts (fst (setState StateOpen cb)) = zeroCounts /\
  snd (setState StateOpen cb) =
    [CallOnStateChange "cb" StateClosed StateOpen
       (mkSnapshot StateOpen (mkCounts 5 0 5 0 5) zeroTime)] /\
  state cb = StateClosed /\
  setState StateClosed cb = (cb, []).
Proof.
  assert (Hn : state (run (fails 5 10) (NewCircuitBreaker (loggingConfig 2)))
               <> StateOpen) by discriminate.
  assert (He : state (run (fails 5 10) (NewCircuitBreaker (loggingConfig 2)))
               = StateClosed) by reflexivity.
  destruct (C7_setState_notifies_then_resets StateOpen
              (run (fails 5 10) (NewCircuitBreaker (loggingConfig 2))))
    as [Ha _].
  destruct (C7_setState_notifies_then_resets StateClosed
              (run (fails 5 10) (NewCircuitBreaker (loggingConfig 2))))
    as [_ Hb].
  destruct (Ha Hn) as (_ & H2 & _ & H4).
  exact (conj Hn (conj H2 (conj H4 (conj He (Hb He))))).
Defined.

(** C7, as stated, fails on the order: when the observer is called the
    counters are not reset yet.  On the guard reached by five failures (an
    observer being configured) the sixth failure trips the guard, and the
    observer runs while the counters are still 6, 0, 6, 0, 6; they are zero
    only after the call.  The same is seen on [setState] alone. *)
Lemma C7_counterexample_counters_at_notification :
  let cb := run (fails 5 10) (NewCircuitBreaker (loggingConfig 2)) in
  let r := Execute (mkClock 10 10) fail cb in
  calls r =
    [CallReq; CallReadyToTrip (mkCounts 6 0 6 0 6);
     CallOnStateChange "cb" StateClosed StateOpen
       (mkSnapshot StateOpen (mkCounts 6 0 6 0 6) (10 + 60 * Second))] /\
  counts (after r) = zeroCounts /\
  snd (setState StateOpen cb) =
    [CallOnStateChange "cb" StateClosed StateOpen
       (mkSnapshot StateOpen (mkCounts 5 0 5 0 5) zeroTime)] /\
  mkCounts 6 0 6 0 6 <> zeroCounts /\
  mkCounts 5 0 5 0 5 <> zeroCounts.
Proof.
  vm_compute. repeat split; try reflexivity; intro H; discriminate H.
Qed.

(** ** A threshold of zero *)

Lemma locked_out_Execute clk req cb :
  locked_out cb ->
  let r := Execute clk req cb in
  (ret r = (Nil, Some ErrOpenState) \/ ret r = (Nil, Some ErrTooManyRequests)) /\
  admitted (now_entry clk) cb = false /\
  locked_out (after r) /\
  (forall e, In e (calls r) -> is_CallOnStateChange e = true).
Proof.
  intros (Hth & Hst & Hreq). cbv zeta.
  assert (A : exists e,
             admission (fst (checkExpiry (now_entry clk) cb)) = Some e /\
             (e = ErrOpenState \/ e = ErrTooManyRequests) /\
             locked_out (fst (checkExpiry (now_entry clk) cb))).
  { destruct (state cb) eqn:Es; [congruence| |].
    - destruct (Z.lt_ge_cases (expiredAt cb) (now_entry clk)) as [L|L].
      + rewrite (checkExpiry_elapsed _ _ Es L). simpl.
        exists ErrTooManyRequests. unfold admission, locked_out. simpl.
        rewrite Hth. simpl.
        repeat split; try tauto; try lia; discriminate.
      + rewrite (checkExpiry_waiting _ _ L). simpl.
        exists ErrOpenState. unfold admission, locked_out.
        rewrite Es. simpl. repeat split; try tauto; try lia; discriminate.
    - rewrite checkExpiry_not_open by congruence. simpl.
      exists ErrTooManyRequests. unfold admission, locked_out.
      rewrite Es, Hth. simpl.
      assert (E : (0 <=? Requests (counts cb)) = true)
        by (apply Z.leb_le; exact Hreq).
      rewrite E. repeat split; try tauto; try lia; discriminate. }
  destruct A as (e & Hadm & He & Hlock).
  rewrite (Execute_rejected clk req cb e Hadm). simpl.
  split; [destruct He as [-> | ->]; tauto|].
  split; [unfold admitted; now rewrite Hadm|].
  split; [exact Hlock|]. apply checkExpiry_events.
Qed.

Lemma locked_out_run cs cb : locked_out cb -> locked_out (run cs cb).
Proof.
  revert cb. induction cs as [|c cs IH]; intros cb H; [exact H|].
  rewrite run_cons. apply IH.
  apply (locked_out_Execute (clock c) (action c) cb H).
Qed.

Lemma reachable_Requests_nonneg cfg cb :
  reachable cfg cb -> 0 <= Requests (counts cb).
Proof.
  intros [cs ->].
  destruct (reachable_counts cfg cs) as [H _].
  rewrite <- H. apply wrap32_range.
Qed.

Lemma no_CallReq (evs : list Event) :
  (forall e, In e evs -> is_CallOnStateChange e = true) ->
  count_events is_CallReq evs = 0%nat.
Proof.
  unfold count_events. induction evs as [|x evs IH]; intro H; [reflexivity|].
  simpl. pose proof (H x (or_introl eq_refl)) as Hx.
  destruct x; try discriminate Hx. simpl.
  apply IH. intros y Hy. apply H. now right.
Qed.

(** C8.  A guard made with [RequestThreshold = 0] admits no call once it
    has gone to open: whatever calls follow, each of them is rejected with
    [ErrOpenState] or [ErrTooManyRequests], the action is not called, and
    the guard is never closed again. *)
Theorem C8_zero_threshold_locks_out (cfg : Config) (before later : list Call)
    (c : Call) :
  RequestThreshold cfg = 0 ->
  state (run before (NewCircuitBreaker cfg)) = StateOpen ->
  let cb := run later (run before (NewCircuitBreaker cfg)) in
  let r := Execute (clock c) (action c) cb in
  state cb <> StateClosed /\
  admitted (now_entry (clock c)) cb = false /\
  (ret r = (Nil, Some ErrOpenState) \/ ret r = (Nil, Some ErrTooManyRequests)) /\
  count_events is_CallReq (calls r) = 0%nat /\
  state (after r) <> StateClosed.
Proof.
  intros Hth Hopen. cbv zeta.
  assert (L0 : locked_out (run before (NewCircuitBreaker cfg))).
  { unfold locked_out.
    destruct (run_settings before (NewCircuitBreaker cfg)) as (_ & T & _).
    rewrite <- T. simpl. split; [exact Hth|]. split; [congruence|].
    apply (reachable_Requests_nonneg cfg). now exists before. }
  pose proof (locked_out_run later _ L0) as L.
  destruct (locked_out_Execute (clock c) (action c) _ L)
    as (Hret & Hadm & Hafter & Hev).
  split; [apply L|]. split; [exact Hadm|]. split; [exact Hret|].
  split; [now apply no_CallReq|apply Hafter].
Qed.

Lemma C8_zero_threshold_locks_out_witness :
  let before := fails 6 10 in
  let later := [at_time 11 succeed; at_time (11 + 60 * Second) succeed] in
  let c := at_time (12 + 120 * Second) succeed in
  let cb := run later (run before (NewCircuitBreaker zeroThresholdConfig)) in
  let r := Execute (clock c) (action c) cb in
  RequestThreshold zeroThresholdConfig = 0 /\
  state (run before (NewCircuitBreaker zeroThresholdConfig)) = StateOpen /\
  state cb <> StateClosed /\
  count_events is_CallReq (calls r) = 0%nat /\
  state (after r) <> StateClosed.
Proof.
  assert (Hth : RequestThreshold zeroThresholdConfig = 0) by reflexivity.
  assert (Ho : state (run (fails 6 10) (NewCircuitBreaker zeroThresholdConfig))
               = StateOpen) by reflexivity.
  destruct (C8_zero_threshold_locks_out zeroThresholdConfig (fails 6 10)
              [at_time 11 succeed; at_time (11 + 60 * Second) succeed]
              (at_time (12 + 120 * Second) succeed) Hth Ho)
    as (H1 & _ & _ & H4 & H5).
  exact (conj Hth (conj Ho (conj H1 (conj H4 H5)))).
Defined.

(** ** Rejections and action outcomes *)

Lemma count_CallReq_admitted (evs1 evs3 : list Event) :
  (forall e, In e evs1 -> is_CallOnStateChange e = true) ->
  (forall e, In e evs3 -> is_CallReq e = false) ->
  count_events is_CallReq (evs1 ++ CallReq :: evs3) = 1%nat.
Proof.
  intros H1 H3. unfold count_events.
  rewrite filter_app, length_app. simpl.
  fold (count_events is_CallReq evs1). rewrite (no_CallReq evs1 H1). simpl.
  f_equal.
  induction evs3 as [|x evs IH]; [reflexivity|].
  simpl. rewrite (H3 x (or_introl eq_refl)).
  apply IH. intros y Hy. apply H3. now right.
Qed.

Lemma onFailure_events now s cb e :
  In e (snd (onFailure now s cb)) -> is_CallReq e = false.
Proof.
  unfold onFailure. destruct s; simpl.
  - destruct (readyToTrip cb _).
    + destruct (setState _ _) as [cb2 evs] eqn:E. simpl.
      intros [<-|Hin]; [reflexivity|].
      assert (Hin' : In e (snd (setState StateOpen
                (set_expiredAt (Add now (timeout cb))
                   (set_counts (Counts_onFailure (counts cb)) cb)))))
        by (unfold set_counts in *; simpl in *; rewrite E; exact Hin).
      apply setState_events in Hin'. now destruct e.
    + simpl. intros [<-|[]]. reflexivity.
  - tauto.
  - intro Hin. apply setState_events in Hin. now destruct e.
Qed.

(** C9.  A call that is admitted calls the action exactly once and returns
    what the action returned, result and error, unchanged.  A call that is
    not admitted does not call the action and returns [nil] with
    [ErrOpenState] or [ErrTooManyRequests].  So the guard's own rejections
    are produced exactly on the calls on which the action is not called;
    and when the action's error is not one of the two sentinel values, the
    error returned is a sentinel exactly when the action was not called. *)
Theorem C9_action_or_rejection (clk : Clock) (req : unit -> Outcome)
    (cb : CircuitBreaker) :
  let r := Execute clk req cb in
  (admitted (now_entry clk) cb = true ->
   count_events is_CallReq (calls r) = 1%nat /\ ret r = req tt) /\
  (admitted (now_entry clk) cb = false ->
   count_events is_CallReq (calls r) = 0%nat /\
   (ret r = (Nil, Some ErrOpenState) \/
    ret r = (Nil, Some ErrTooManyRequests))) /\
  (is_sentinel (snd (req tt)) = false ->
   (is_sentinel (snd (ret r)) = true <->
    count_events is_CallReq (calls r) = 0%nat)).
Proof.
  cbv zeta. unfold admitted.
  destruct (admission (fst (checkExpiry (now_entry clk) cb))) as [e|] eqn:Hadm.
  - rewrite (Execute_rejected clk req cb e Hadm). simpl.
    assert (N : count_events is_CallReq (snd (checkExpiry (now_entry clk) cb))
                = 0%nat)
      by (apply no_CallReq, checkExpiry_events).
    assert (E : e = ErrOpenState \/ e = ErrTooManyRequests).
    { unfold admission in Hadm.
      destruct (State_eqb _ StateOpen); [left; congruence|].
      destruct (_ && _); [right; congruence|discriminate]. }
    split; [discriminate|]. split.
    + intros _. split; [exact N|]. destruct E as [-> | ->]; tauto.
    + intros _. rewrite N. destruct E as [-> | ->]; simpl; tauto.
  - rewrite (Execute_admitted clk req cb Hadm). simpl.
    assert (O : count_events is_CallReq
                  (snd (checkExpiry (now_entry clk) cb) ++ CallReq ::
                   snd (match snd (req tt) with
                        | Some _ =>
                            onFailure (now_outcome clk)
                              (state (fst (checkExpiry (now_entry clk) cb)))
                              (set_counts
                                 (Counts_onRequest
                                    (counts (fst (checkExpiry (now_entry clk) cb))))
                                 (fst (checkExpiry (now_entry clk) cb)))
                        | None =>
                            onSuccess
                              (state (fst (checkExpiry (now_entry clk) cb)))
                              (set_counts
                                 (Counts_onRequest
                                    (counts (fst (checkExpiry (now_entry clk) cb))))
                                 (fst (checkExpiry (now_entry clk) cb)))
                        end)) = 1%nat).
    { apply count_CallReq_admitted; [apply checkExpiry_events|].
      intros e Hin. destruct (snd (req tt)).
      - now apply onFailure_events in Hin.
      - apply onSuccess_events in Hin. now destruct e. }
    split; [intros _; split; [exact O|reflexivity]|].
    split; [discriminate|].
    intro Hs. rewrite O, Hs. split; discriminate.
Qed.

Lemma C9_action_or_rejection_witness :
  let r := Execute (mkClock 13 13) succeed tripped in
  let r' := Execute (mkClock (13 + 60 * Second) 0) (fun _ => (Box "ok", None))
              tripped in
  admitted 13 tripped = false /\
  count_events is_CallReq (calls r) = 0%nat /\
  admitted (13 + 60 * Second) tripped = true /\
  count_events is_CallReq (calls r') = 1%nat /\
  ret r' = (Box "ok", None) /\
  is_sentinel (snd (succeed tt)) = false /\
  (is_sentinel (snd (ret r)) = true <->
   count_events is_CallReq (calls r) = 0%nat).
Proof.
  assert (Hf : admitted (now_entry (mkClock 13 13)) tripped = false)
    by reflexivity.
  assert (Ht : admitted (now_entry (mkClock (13 + 60 * Second) 0)) tripped
               = true) by reflexivity.
  assert (Hs : is_sentinel (snd (succeed tt)) = false) by reflexivity.
  destruct (C9_action_or_rejection (mkClock 13 13) succeed tripped)
    as (_ & Hb & Hc).
  destruct (C9_action_or_rejection (mkClock (13 + 60 * Second) 0)
              (fun _ => (Box "ok", None)) tripped) as (Ha & _).
  destruct (Hb Hf) as (H1 & _). destruct (Ha Ht) as (H2 & H3).
  exact (conj Hf (conj H1 (conj Ht (conj H2 (conj H3 (conj Hs (Hc Hs))))))).
Defined.

(** ** A threshold of at least one *)

Lemma step_probing_inv cb c :
  1 <= requestThreshold cb -> probing_inv cb -> probing_inv (step cb c).
Proof.
  unfold probing_inv, step, Execute, checkExpiry, admission.
  destruct cb as [nm th tm rt hook st cn ex]; simpl. intros Hth H.
  destruct (action c tt) as [result [e|]], st; simpl;
    repeat match goal with
    | |- context [if ?b then _ else _] => destruct b eqn:?; simpl
    end;
    try discriminate; try (intros _; lia); try exact H.
  all: intros _;
    repeat match goal with
    | E : (_ <=? _) = false |- _ => apply Z.leb_gt in E
    end;
    simpl in *; try lia.
  destruct H as [H1 H2]; [reflexivity|]. rewrite H1. lia.
Qed.

Lemma reachable_probing_inv cfg cb :
  1 <= RequestThreshold cfg -> reachable cfg cb -> probing_inv cb.
Proof.
  intros Hth Hr.
  assert (G : requestThreshold cb = RequestThreshold cfg /\ probing_inv cb).
  { revert cb Hr. apply reachable_ind.
    - split; [reflexivity|]. intro H. discriminate H.
    - intros cb c [T P].
      destruct (Execute_settings (clock c) (action c) cb) as (_ & T' & _).
      split; [unfold step; congruence|].
      apply step_probing_inv; [lia|exact P]. }
  apply G.
Qed.

(** ** Rejections, and calls on a closed guard *)

(** When the admission check, made after the deadline check, refuses. *)
Lemma admission_verdicts (clk : Clock) (req : unit -> Outcome)
    (cb : CircuitBreaker) :
  let verdict := admission (fst (checkExpiry (now_entry clk) cb)) in
  (verdict = Some ErrOpenState <->
   state cb = StateOpen /\ now_entry clk <= expiredAt cb) /\
  (verdict = Some ErrTooManyRequests <->
   (state cb = StateHalfOpen /\ requestThreshold cb <= Requests (counts cb)) \/
   (state cb = StateOpen /\ expiredAt cb < now_entry clk /\
    requestThreshold cb <= 0)) /\
  (state cb = StateHalfOpen ->
   requestThreshold cb <= Requests (counts cb) ->
   Execute clk req cb = mkExec (Nil, Some ErrTooManyRequests) cb []).
Proof.
  cbv zeta.
  assert (K : state cb = StateHalfOpen ->
              requestThreshold cb <= Requests (counts cb) ->
              admission cb = Some ErrTooManyRequests).
  { intros Es L. unfold admission. rewrite Es. simpl.
    apply Z.leb_le in L. now rewrite L. }
  split; [|split].
  - destruct (state cb) eqn:Es.
    + rewrite checkExpiry_not_open by congruence. unfold admission. simpl.
      rewrite Es. simpl. split; [discriminate|intros [H _]; discriminate].
    + destruct (Z.lt_ge_cases (expiredAt cb) (now_entry clk)) as [L|L].
      * rewrite (checkExpiry_elapsed _ _ Es L). unfold admission. simpl.
        split; [destruct (_ <=? 0); discriminate|intros [_ H]; lia].
      * rewrite (checkExpiry_waiting _ _ L). unfold admission. simpl.
        rewrite Es. simpl. split; [now split|reflexivity].
    + rewrite checkExpiry_not_open by congruence. unfold admission. simpl.
      rewrite Es. simpl.
      split; [destruct (_ <=? _); discriminate|intros [H _]; discriminate].
  - destruct (state cb) eqn:Es.
    + rewrite checkExpiry_not_open by congruence. unfold admission. simpl.
      rewrite Es. simpl.
      split; [discriminate|intros [[H _]|[H _]]; discriminate].
    + destruct (Z.lt_ge_cases (expiredAt cb) (now_entry clk)) as [L|L].
      * rewrite (checkExpiry_elapsed _ _ Es L). unfold admission. simpl.
        destruct (Z.leb_spec (requestThreshold cb) 0) as [T|T].
        -- split; [intros _; right; repeat split; assumption|reflexivity].
        -- split; [discriminate|intros [[H _]|(_ & _ & H)];
                                 [discriminate|lia]].
      * rewrite (checkExpiry_waiting _ _ L). unfold admission. simpl.
        rewrite Es. simpl.
        split; [discriminate|intros [[H _]|(_ & H & _)]; [discriminate|lia]].
    + rewrite checkExpiry_not_open by congruence. unfold admission. simpl.
      rewrite Es. simpl.
      destruct (Z.leb_spec (requestThreshold cb) (Requests (counts cb)))
        as [T|T].
      * split; [intros _; left; now split|reflexivity].
      * split; [discriminate|intros [[_ H]|[H _]]; [lia|discriminate]].
  - intros Es L.
    rewrite (Execute_rejected clk req cb ErrTooManyRequests);
      rewrite checkExpiry_not_open by congruence; simpl;
      [reflexivity|now apply K].
Qed.

(** X2.  A closed guard admits every call, whatever its counters and the
    clock: the action is called once and its pair returned.  When the
    action succeeds the success is recorded, the guard stays closed with its
    deadline untouched, and neither the trip predicate nor the observer is
    called.  A call on a closed guard never ends half-open. *)
Theorem X2_closed_admits (clk : Clock) (req : unit -> Outcome)
    (cb : CircuitBreaker) :
  state cb = StateClosed ->
  let r := Execute clk req cb in
  admitted (now_entry clk) cb = true /\
  ret r = req tt /\
  count_events is_CallReq (calls r) = 1%nat /\
  state (after r) <> StateHalfOpen /\
  (snd (req tt) = None ->
   after r = set_counts (Counts_onSuccess (Counts_onRequest (counts cb))) cb /\
   calls r = [CallReq]).
Proof.
  intro Hs. cbv zeta.
  assert (Hno : state cb <> StateOpen) by congruence.
  assert (Hadm : admission (fst (checkExpiry (now_entry clk) cb)) = None).
  { rewrite (checkExpiry_not_open _ _ Hno). unfold admission. simpl.
    rewrite Hs. reflexivity. }
  split; [now apply admitted_true|].
  rewrite (Execute_admitted clk req cb Hadm).
  rewrite (checkExpiry_not_open _ _ Hno). simpl. rewrite Hs.
  split; [reflexivity|].
  destruct (snd (req tt)) as [e|].
  - unfold onFailure.
    destruct (readyToTrip _ _).
    + rewrite setState_changes by (simpl; congruence). simpl.
      split; [destruct (onStateChange cb); reflexivity|].
      split; [discriminate|discriminate].
    + simpl. rewrite Hs.
      split; [reflexivity|]. split; [discriminate|discriminate].
  - simpl. rewrite Hs. split; [reflexivity|].
    split; [discriminate|]. intros _. split; reflexivity.
Qed.

Lemma X2_closed_admits_witness :
  let cb := run (fails 5 10) (NewCircuitBreaker testConfig) in
  let r := Execute (mkClock 11 12) (fun _ => (Box "pong", None)) cb in
  state cb = StateClosed /\
  ret r = (Box "pong", None) /\
  calls r = [CallReq] /\
  counts (after r) = mkCounts 6 1 5 1 0.
Proof.
  assert (Hs : state (run (fails 5 10) (NewCircuitBreaker testConfig))
               = StateClosed) by reflexivity.
  destruct (X2_closed_admits (mkClock 11 12) (fun _ => (Box "pong", None))
              _ Hs) as (_ & H2 & _ & _ & H5).
  destruct (H5 eq_refl) as [H6 H7].
  refine (conj Hs (conj H2 (conj H7 _))).
  rewrite H6. reflexivity.
Defined.

(** ** Invariants of reachable guards *)

(** X3.  [Execute] never writes the settings of the guard: after any run,
    name, threshold, predicate and observer are those of the configuration,
    and the timeout is the configured one, or sixty seconds when the
    configured one is zero; so the timeout of a guard is never zero. *)
Theorem X3_settings_are_kept (cfg : Config) (cs : list Call) :
  let cb := run cs (NewCircuitBreaker cfg) in
  name cb = Name cfg /\
  requestThreshold cb = RequestThreshold cfg /\
  timeout cb = (if Timeout cfg =? 0 then 60 * Second else Timeout cfg) /\
  timeout cb <> 0 /\
  readyToTrip cb = match ReadyToTrip cfg with
                   | Some p => p
                   | None => defaultReadyToTrip
                   end /\
  onStateChange cb = OnStateChange cfg.
Proof.
  cbv zeta.
  destruct (run_settings cs (NewCircuitBreaker cfg))
    as (H1 & H2 & H3 & H4 & H5).
  rewrite <- H1, <- H2, <- H3, <- H4, <- H5. simpl.
  repeat split.
  destruct (Z.eqb_spec (Timeout cfg) 0) as [E|E]; [discriminate|exact E].
Qed.

(** X4.  After any run from a fresh guard, the deadline is the zero time
    whenever the guard is not open. *)
Theorem X4_deadline_clear_unless_open (cfg : Config) (cs : list Call) :
  state (run cs (NewCircuitBreaker cfg)) <> StateOpen ->
  expiredAt (run cs (NewCircuitBreaker cfg)) = zeroTime /\
  IsZero (expiredAt (run cs (NewCircuitBreaker cfg))) = true.
Proof.
  intro H.
  assert (E : expiredAt (run cs (NewCircuitBreaker cfg)) = zeroTime).
  { apply (reachable_deadline_inv cfg); [now exists cs|exact H]. }
  split; [exact E|]. rewrite E. reflexivity.
Qed.

Lemma X4_deadline_clear_unless_open_witness :
  let cs := fails 5 10 ++ [at_time 11 succeed] ++ fails 6 12
            ++ [at_time (13 + 60 * Second) succeed] in
  state (run cs (NewCircuitBreaker testConfig)) <> StateOpen /\
  expiredAt (run cs (NewCircuitBreaker testConfig)) = zeroTime.
Proof.
  assert (H : state (run (fails 5 10 ++ [at_time 11 succeed] ++ fails 6 12
                          ++ [at_time (13 + 60 * Second) succeed])
                       (NewCircuitBreaker testConfig)) <> StateOpen)
    by (vm_compute; discriminate).
  exact (conj H (proj1 (X4_deadline_clear_unless_open testConfig _ H))).
Defined.

Ltac split_guard_cases :=
  repeat match goal with
  | |- context [if ?b then _ else _] => destruct b eqn:?; simpl
  end.

Lemma step_open_inv cb c : open_inv cb -> open_inv (step cb c).
Proof.
  unfold open_inv, step, Execute, checkExpiry, admission.
  destruct cb as [nm th tm rt hook st cn ex]; simpl. intro H.
  destruct (action c tt) as [result [e|]], st; simpl; split_guard_cases;
    try discriminate; intros _; try reflexivity; now apply H.
Qed.

Lemma step_half_open_inv cb c : half_open_inv cb -> half_open_inv (step cb c).
Proof.
  unfold half_open_inv, step, Execute, checkExpiry, admission.
  destruct cb as [nm th tm rt hook st cn ex]; simpl. intro H.
  destruct (action c tt) as [result [e|]], st; simpl; split_guard_cases;
    try discriminate; intros _; simpl;
    try (repeat split; reflexivity); try (now apply H).
  destruct H as (H1 & H2 & H3 & H4); [reflexivity|].
  rewrite H3, H4. repeat split; assumption.
Qed.

Lemma step_untripped_inv cb c : untripped_inv cb -> untripped_inv (step cb c).
Proof.
  unfold untripped_inv, step, Execute, checkExpiry, admission.
  destruct cb as [nm th tm rt hook st cn ex]; simpl. intro H.
  destruct (action c tt) as [result [e|]], st; simpl; split_guard_cases;
    try discriminate; intros _ N; simpl in *;
    try congruence; try (now apply H).
Qed.

(** ** The default predicate *)

Lemma Execute_closed_failure clk req cb :
  state cb = StateClosed -> snd (req tt) <> None ->
  let c1 := Counts_onFailure (Counts_onRequest (counts cb)) in
  after (Execute clk req cb) =
    if readyToTrip cb c1
    then mkCB (name cb) (requestThreshold cb) (timeout cb) (readyToTrip cb)
              (onStateChange cb) StateOpen zeroCounts
              (Add (now_outcome clk) (timeout cb))
    else set_counts c1 cb.
Proof.
  intros Hs Herr. cbv zeta.
  assert (Hno : state cb <> StateOpen) by congruence.
  assert (Hadm : admission (fst (checkExpiry (now_entry clk) cb)) = None).
  { rewrite (checkExpiry_not_open _ _ Hno). unfold admission. simpl.
    rewrite Hs. reflexivity. }
  rewrite (Execute_admitted clk req cb Hadm).
  rewrite (checkExpiry_not_open _ _ Hno). simpl. rewrite Hs.
  destruct (snd (req tt)) as [e|]; [clear Herr|congruence].
  unfold onFailure. simpl.
  destruct (readyToTrip cb _); [|reflexivity].
  rewrite setState_changes by (simpl; congruence). reflexivity.
Qed.

Lemma step_default_policy_inv cb c :
  default_policy_inv cb -> default_policy_inv (step cb c).
Proof.
  unfold default_policy_inv, step, Execute, checkExpiry, admission.
  destruct cb as [nm th tm rt hook st cn ex]; simpl. intros [-> H].
  unfold defaultConsecutiveFailures in *.
  destruct (action c tt) as [result [e|]], st; simpl; split_guard_cases;
    simpl; split; try reflexivity; try lia.
  match goal with
  | E : defaultReadyToTrip _ = false |- _ =>
      unfold defaultReadyToTrip, defaultConsecutiveFailures in E;
      simpl in E; apply Z.ltb_ge in E
  end.
  pose proof (incr32_nonneg (ConsecutiveFailures cn)). lia.
Qed.

(** X7.  For a guard made without [ReadyToTrip], after any run the streak
    of failures on the counters is at most 5, and a failing call on the
    closed guard opens it exactly when that streak is 5 before the call:
    the guard opens on the sixth failure in a row and on no other. *)
Theorem X7_default_trips_on_sixth (cfg : Config) (cs : list Call)
    (clk : Clock) (req : unit -> Outcome) :
  ReadyToTrip cfg = None ->
  let cb := run cs (NewCircuitBreaker cfg) in
  0 <= ConsecutiveFailures (counts cb) <= 5 /\
  (state cb = StateClosed -> snd (req tt) <> None ->
   (state (after (Execute clk req cb)) = StateOpen <->
    ConsecutiveFailures (counts cb) = 5)).
Proof.
  intro Hnone. cbv zeta.
  assert (Hr : reachable cfg (run cs (NewCircuitBreaker cfg)))
    by now exists cs.
  assert (D : default_policy_inv (run cs (NewCircuitBreaker cfg))).
  { revert Hr. generalize (run cs (NewCircuitBreaker cfg)).
    apply (reachable_ind cfg default_policy_inv).
    - unfold default_policy_inv. simpl. rewrite Hnone.
      unfold defaultConsecutiveFailures. split; [reflexivity|lia].
    - intros cb c. apply step_default_policy_inv. }
  destruct D as [Drt Dcf]. unfold defaultConsecutiveFailures in Dcf.
  split; [exact Dcf|]. intros Hs Herr.
  rewrite (Execute_closed_failure clk req _ Hs Herr).
  rewrite Drt. unfold defaultReadyToTrip, defaultConsecutiveFailures. simpl.
  rewrite (incr32_exact _ 5) by (unfold two32; lia).
  destruct (Z.ltb_spec 5
              (ConsecutiveFailures
                 (counts (run cs (NewCircuitBreaker cfg))) + 1)) as [L|L];
    simpl.
  - split; [intros _; lia|reflexivity].
  - rewrite Hs. split; [discriminate|lia].
Qed.

Lemma X7_default_trips_on_sixth_witness :
  let cb := run (fails 5 10) (NewCircuitBreaker zeroThresholdConfig) in
  ReadyToTrip zeroThresholdConfig = None /\
  state cb = StateClosed /\ snd (fail tt) <> None /\
  ConsecutiveFailures (counts cb) = 5 /\
  state (after (Execute (mkClock 11 12) fail cb)) = StateOpen.
Proof.
  assert (Hn : ReadyToTrip zeroThresholdConfig = None) by reflexivity.
  assert (Hs : state (run (fails 5 10) (NewCircuitBreaker zeroThresholdConfig))
               = StateClosed) by reflexivity.
  assert (He : snd (fail tt) <> None) by discriminate.
  assert (H5 : ConsecutiveFailures
                 (counts (run (fails 5 10)
                            (NewCircuitBreaker zeroThresholdConfig))) = 5)
    by reflexivity.
  destruct (X7_default_trips_on_sixth zeroThresholdConfig (fails 5 10)
              (mkClock 11 12) fail Hn) as [_ H].
  destruct (H Hs He) as [_ Hopen].
  exact (conj Hn (conj Hs (conj He (conj H5 (Hopen H5))))).
Defined.

(** ** The cooldown *)

Lemma Execute_open_waiting clk req cb :
  state cb = StateOpen -> now_entry clk <= expiredAt cb ->
  Execute clk req cb = mkExec (Nil, Some ErrOpenState) cb [].
Proof.
  intros Hs Hle.
  rewrite (Execute_rejected clk req cb ErrOpenState);
    rewrite (checkExpiry_waiting _ _ Hle); simpl; [reflexivity|].
  unfold admission. now rewrite Hs.
Qed.

(** X8.  An open guard turns away every call made up to its deadline: any
    number of such calls, one after the other, all return [nil] and
    [ErrOpenState], call none of the caller's functions and leave the
    guard exactly as it was. *)
Theorem X8_cooldown_holds (cs : list Call) (cb : CircuitBreaker) :
  state cb = StateOpen ->
  all_by (expiredAt cb) cs ->
  run cs cb = cb /\
  replies cs cb = map (fun _ => (Nil, Some ErrOpenState)) cs /\
  trace cs cb = [].
Proof.
  intros Hs Hall. induction Hall as [|c cs Hc Hcs IH].
  - repeat split.
  - rewrite run_cons. simpl. unfold step.
    rewrite (Execute_open_waiting (clock c) (action c) cb Hs Hc). simpl.
    destruct IH as (I1 & I2 & I3).
    split; [exact I1|]. split; [now rewrite I2|exact I3].
Qed.

Lemma X8_cooldown_holds_witness :
  let cs := [at_time 13 succeed; at_time 14 fail;
             at_time (expiredAt tripped) succeed] in
  state tripped = StateOpen /\
  all_by (expiredAt tripped) cs /\
  run cs tripped = tripped /\
  replies cs tripped =
    [(Nil, Some ErrOpenState); (Nil, Some ErrOpenState);
     (Nil, Some ErrOpenState)].
Proof.
  assert (Hs : state tripped = StateOpen) by reflexivity.
  assert (Ha : all_by (expiredAt tripped)
                 [at_time 13 succeed; at_time 14 fail;
                  at_time (expiredAt tripped) succeed]).
  { repeat constructor; vm_compute; discriminate. }
  destruct (X8_cooldown_holds _ tripped Hs Ha) as (H1 & H2 & _).
  exact (conj Hs (conj Ha (conj H1 H2))).
Defined.

(** ** Recovery *)

Lemma checkExpiry_again now cb :
  checkExpiry now (fst (checkExpiry now cb)) = (fst (checkExpiry now cb), []).
Proof.
  destruct (state cb) eqn:Es.
  - rewrite (checkExpiry_not_open now cb) by congruence. simpl.
    apply checkExpiry_not_open. congruence.
  - destruct (Z.lt_ge_cases (expiredAt cb) now) as [L|L].
    + rewrite (checkExpiry_elapsed _ _ Es L). simpl.
      apply checkExpiry_not_open. simpl. discriminate.
    + rewrite (checkExpiry_waiting _ _ L). simpl.
      now apply checkExpiry_waiting.
  - rewrite (checkExpiry_not_open now cb) by congruence. simpl.
    apply checkExpiry_not_open. congruence.
Qed.

(** A call goes on from the guard the deadline check leaves. *)
Lemma Execute_after_checkExpiry clk req cb :
  let cb1 := fst (checkExpiry (now_entry clk) cb) in
  after (Execute clk req cb) = after (Execute clk req cb1) /\
  ret (Execute clk req cb) = ret (Execute clk req cb1).
Proof.
  cbv zeta. unfold Execute at 2 4. rewrite checkExpiry_again.
  unfold Execute.
  destruct (checkExpiry (now_entry clk) cb) as [cb1 evs1]. simpl.
  destruct (admission cb1); [split; reflexivity|].
  destruct (req tt) as [result [e|]].
  - destruct (onFailure _ _ _). split; reflexivity.
  - destruct (onSuccess _ _). split; reflexivity.
Qed.

Lemma Execute_half_open_success clk req cb :
  state cb = StateHalfOpen ->
  Requests (counts cb) < requestThreshold cb ->
  snd (req tt) = None ->
  let c1 := Counts_onSuccess (Counts_onRequest (counts cb)) in
  ret (Execute clk req cb) = req tt /\
  after (Execute clk req cb) =
    if requestThreshold cb <=? ConsecutiveSuccesses c1
    then mkCB (name cb) (requestThreshold cb) (timeout cb) (readyToTrip cb)
              (onStateChange cb) StateClosed zeroCounts (expiredAt cb)
    else set_counts c1 cb.
Proof.
  intros Hs Hlt Hok. cbv zeta.
  assert (Hno : state cb <> StateOpen) by congruence.
  assert (Hadm : admission (fst (checkExpiry (now_entry clk) cb)) = None).
  { rewrite (checkExpiry_not_open _ _ Hno). unfold admission. simpl.
    rewrite Hs. simpl.
    assert (E : (requestThreshold cb <=? Requests (counts cb)) = false)
      by (apply Z.leb_gt; exact Hlt).
    now rewrite E. }
  rewrite (Execute_admitted clk req cb Hadm).
  rewrite (checkExpiry_not_open _ _ Hno). simpl. rewrite Hs, Hok.
  split; [reflexivity|]. unfold onSuccess. simpl.
  destruct (_ <=? _); [|reflexivity].
  rewrite setState_changes by (simpl; congruence). reflexivity.
Qed.

(** Successful probes, from a half-open guard on which every request so
    far is a success of the streak. *)
Lemma probing_run (cs : list Call) :
  forall cb,
  all_succeed cs ->
  state cb = StateHalfOpen ->
  ConsecutiveSuccesses (counts cb) = Requests (counts cb) ->
  0 <= Requests (counts cb) ->
  requestThreshold cb < two32 ->
  Requests (counts cb) + Z.of_nat (List.length cs) <= requestThreshold cb ->
  replies cs cb = map (fun c => action c tt) cs /\
  expiredAt (run cs cb) = expiredAt cb /\
  (Requests (counts cb) + Z.of_nat (List.length cs) < requestThreshold cb ->
   state (run cs cb) = StateHalfOpen /\
   Requests (counts (run cs cb))
     = Requests (counts cb) + Z.of_nat (List.length cs)) /\
  (Requests (counts cb) + Z.of_nat (List.length cs) = requestThreshold cb ->
   cs <> [] ->
   state (run cs cb) = StateClosed /\ counts (run cs cb) = zeroCounts).
Proof.
  induction cs as [|c cs IH]; intros cb Hall Hs Hcs H0 H32 Hle.
  - simpl. split; [reflexivity|]. split; [reflexivity|]. split.
    + intros _. split; [exact Hs|lia].
    + intros _ N. now elim N.
  - inversion Hall as [|c' cs' Hc Hrest]; subst.
    assert (Hlen : Z.of_nat (List.length (c :: cs))
                   = 1 + Z.of_nat (List.length cs))
      by (simpl List.length; lia).
    rewrite Hlen in *.
    assert (Hlt : Requests (counts cb) < requestThreshold cb) by lia.
    destruct (Execute_half_open_success (clock c) (action c) cb Hs Hlt Hc)
      as [Hret Hafter].
    simpl in Hafter. rewrite Hcs in Hafter.
    rewrite (incr32_exact (Requests (counts cb)) (requestThreshold cb - 1))
      in Hafter by (unfold two32 in *; lia).
    rewrite run_cons. simpl replies. simpl map. rewrite Hret.
    unfold step. rewrite Hafter. clear Hafter.
    destruct (Z.leb_spec (requestThreshold cb) (Requests (counts cb) + 1))
      as [T|T].
    + assert (cs = []) by (destruct cs; [reflexivity|simpl List.length in Hle; lia]).
      subst cs. simpl.
      split; [reflexivity|]. split; [reflexivity|].
      split; [intro; lia|]. intros _ _. split; reflexivity.
    + set (g := set_counts (Counts_onSuccess (Counts_onRequest (counts cb)))
                  cb).
      assert (Gr : Requests (counts g) = Requests (counts cb) + 1).
      { simpl. apply (incr32_exact _ (requestThreshold cb - 1));
          unfold two32 in *; lia. }
      assert (Gc : ConsecutiveSuccesses (counts g) = Requests (counts g)).
      { rewrite Gr. simpl. rewrite Hcs.
        apply (incr32_exact _ (requestThreshold cb - 1));
          unfold two32 in *; lia. }
      assert (Gs : state g = StateHalfOpen) by exact Hs.
      assert (Gt : requestThreshold g = requestThreshold cb) by reflexivity.
      assert (Ge : expiredAt g = expiredAt cb) by reflexivity.
      destruct (IH g Hrest Gs Gc) as (I1 & I2 & I3 & I4);
        [lia|rewrite Gt; exact H32|rewrite Gt; lia|].
      rewrite Gr, Gt in I3, I4. rewrite Ge in I2.
      split; [now rewrite I1|]. split; [exact I2|].
      split.
      * intro L. destruct I3 as [J1 J2]; [lia|]. split; [exact J1|lia].
      * intros E _. apply I4; [lia|].
        intro N. subst cs. simpl in E. lia.
Qed.

(** X9.  Recovery.  On an open guard with threshold [n >= 1], successful
    calls made one after the other, the first of them after the deadline,
    are all admitted as long as they are at most [n]; fewer than [n] of them
    leave the guard half-open with that many requests counted, and the
    [n]-th closes it, counters zero and deadline clear. *)
Theorem X9_recovery (c : Call) (cs : list Call) (cb : CircuitBreaker) :
  state cb = StateOpen ->
  expiredAt cb < now_entry (clock c) ->
  requestThreshold cb < two32 ->
  all_succeed (c :: cs) ->
  let n := Z.of_nat (List.length (c :: cs)) in
  n <= requestThreshold cb ->
  replies (c :: cs) cb = map (fun c => action c tt) (c :: cs) /\
  expiredAt (run (c :: cs) cb) = zeroTime /\
  (n < requestThreshold cb ->
   state (run (c :: cs) cb) = StateHalfOpen /\
   Requests (counts (run (c :: cs) cb)) = n) /\
  (n = requestThreshold cb ->
   state (run (c :: cs) cb) = StateClosed /\
   counts (run (c :: cs) cb) = zeroCounts).
Proof.
  intros Hs Hlt H32 Hall. cbv zeta. intro Hle.
  destruct (Execute_after_checkExpiry (clock c) (action c) cb) as [Ea Er].
  assert (Hrun : run (c :: cs) cb
                 = run (c :: cs) (fst (checkExpiry (now_entry (clock c)) cb))).
  { rewrite !run_cons. unfold step. now rewrite Ea. }
  assert (Hrep : replies (c :: cs) cb
                 = replies (c :: cs)
                     (fst (checkExpiry (now_entry (clock c)) cb))).
  { simpl. unfold step. now rewrite Ea, Er. }
  rewrite Hrun, Hrep. clear Hrun Hrep Ea Er.
  rewrite (checkExpiry_elapsed _ _ Hs Hlt). simpl fst.
  set (g := mkCB (name cb) (requestThreshold cb) (timeout cb)
              (readyToTrip cb) (onStateChange cb) StateHalfOpen zeroCounts
              zeroTime).
  assert (Gr : Requests (counts g) = 0) by reflexivity.
  assert (Gt : requestThreshold g = requestThreshold cb) by reflexivity.
  assert (Ge : expiredAt g = zeroTime) by reflexivity.
  destruct (probing_run (c :: cs) g Hall eq_refl eq_refl)
    as (P1 & P2 & P3 & P4);
    [rewrite Gr; lia|rewrite Gt; exact H32|rewrite Gr, Gt; lia|].
  rewrite Gr, Gt in P3, P4. rewrite Ge in P2.
  split; [exact P1|]. split; [exact P2|]. split.
  - intro L. apply P3. lia.
  - intro E. apply P4; [lia|discriminate].
Qed.

Lemma X9_recovery_witness :
  let c := at_time (13 + 60 * Second) succeed in
  let cs := [at_time (14 + 60 * Second) succeed] in
  state tripped = StateOpen /\
  expiredAt tripped < now_entry (clock c) /\
  requestThreshold tripped < two32 /\
  all_succeed (c :: cs) /\
  Z.of_nat (List.length (c :: cs)) = requestThreshold tripped /\
  state (run (c :: cs) tripped) = StateClosed /\
  counts (run (c :: cs) tripped) = zeroCounts /\
  expiredAt (run (c :: cs) tripped) = zeroTime.
Proof.
  assert (Hs : state tripped = StateOpen) by reflexivity.
  assert (Hl : expiredAt tripped
               < now_entry (clock (at_time (13 + 60 * Second) succeed)))
    by reflexivity.
  assert (H32 : requestThreshold tripped < two32) by reflexivity.
  assert (Ha : all_succeed [at_time (13 + 60 * Second) succeed;
                            at_time (14 + 60 * Second) succeed])
    by (repeat constructor).
  assert (He : Z.of_nat (List.length [at_time (13 + 60 * Second) succeed;
                                      at_time (14 + 60 * Second) succeed])
               = requestThreshold tripped) by reflexivity.
  assert (Hle : Z.of_nat (List.length [at_time (13 + 60 * Second) succeed;
                                       at_time (14 + 60 * Second) succeed])
                <= requestThreshold tripped) by (rewrite He; lia).
  destruct (X9_recovery _ _ tripped Hs Hl H32 Ha Hle) as (_ & H2 & _ & H4).
  destruct (H4 He) as [H5 H6].
  exact (conj Hs (conj Hl (conj H32 (conj Ha (conj He
           (conj H5 (conj H6 H2))))))).
Defined.

(** ** What the observer is told *)

Lemma notified_app (evs1 evs2 : list Event) :
  notified (evs1 ++ evs2) = notified evs1 ++ notified evs2.
Proof.
  induction evs1 as [|e evs1 IH]; [reflexivity|].
  destruct e; simpl; now rewrite IH.
Qed.

Lemma follow_app (s s' : State) (ts1 ts2 : list (State * State)) :
  follow s ts1 = Some s' -> follow s (ts1 ++ ts2) = follow s' ts2.
Proof.
  revert s. induction ts1 as [|[a b] ts1 IH]; intros s H; simpl in *.
  - now inversion H.
  - destruct (State_eqb a s && negb (State_eqb a b)); [|discriminate].
    now apply IH.
Qed.

Lemma Execute_follow clk req cb :
  onStateChange cb <> None ->
  follow (state cb) (notified (calls (Execute clk req cb)))
  = Some (state (after (Execute clk req cb))).
Proof.
  unfold Execute, checkExpiry, admission.
  destruct cb as [nm th tm rt [h|] st cn ex]; simpl; [intros _|congruence].
  destruct (req tt) as [result [e|]], st; simpl; split_guard_cases;
    reflexivity.
Qed.

Lemma Execute_silent clk req cb :
  onStateChange cb = None ->
  notified (calls (Execute clk req cb)) = [].
Proof.
  unfold Execute, checkExpiry, admission.
  destruct cb as [nm th tm rt [h|] st cn ex]; simpl; [discriminate|intros _].
  destruct (req tt) as [result [e|]], st; simpl; split_guard_cases;
    reflexivity.
Qed.

Lemma run_follow (cs : list Call) :
  forall cb, onStateChange cb <> None ->
  follow (state cb) (notified (trace cs cb)) = Some (state (run cs cb)).
Proof.
  induction cs as [|c cs IH]; intros cb H; [reflexivity|].
  rewrite run_cons. simpl trace. rewrite notified_app.
  rewrite (follow_app _ _ _ _ (Execute_follow (clock c) (action c) cb H)).
  apply IH.
  destruct (Execute_settings (clock c) (action c) cb) as (_ & _ & _ & _ & E).
  unfold step. now rewrite <- E.
Qed.

Lemma run_silent (cs : list Call) :
  forall cb, onStateChange cb = None -> notified (trace cs cb) = [].
Proof.
  induction cs as [|c cs IH]; intros cb H; [reflexivity|].
  simpl trace. rewrite notified_app.
  rewrite (Execute_silent (clock c) (action c) cb H). simpl.
  apply IH.
  destruct (Execute_settings (clock c) (action c) cb) as (_ & _ & _ & _ & E).
  unfold step. now rewrite <- E.
Qed.

(** X10.  With an observer configured, the pairs (from, to) it is told
    over a whole run form a path: the first leaves closed, each one leaves
    the state the one before it reached and goes to a different state, and
    the last reaches the state the guard is in; with none told the guard is
    still closed.  Without an observer nothing is told. *)
Theorem X10_observer_follows_state (cfg : Config) (cs : list Call) :
  (OnStateChange cfg <> None ->
   follow StateClosed (notified (trace cs (NewCircuitBreaker cfg)))
   = Some (state (run cs (NewCircuitBreaker cfg)))) /\
  (OnStateChange cfg = None ->
   notified (trace cs (NewCircuitBreaker cfg)) = []).
Proof.
  split; intro H.
  - apply (run_follow cs (NewCircuitBreaker cfg)). exact H.
  - apply run_silent. exact H.
Qed.

Lemma X10_observer_follows_state_witness :
  let cs := fails 6 10 ++ [at_time (11 + 60 * Second) fail] in
  OnStateChange (loggingConfig 2) <> None /\
  notified (trace cs (NewCircuitBreaker (loggingConfig 2)))
  = [(StateClosed, StateOpen); (StateOpen, StateHalfOpen);
     (StateHalfOpen, StateOpen)] /\
  follow StateClosed (notified (trace cs (NewCircuitBreaker (loggingConfig 2))))
  = Some (state (run cs (NewCircuitBreaker (loggingConfig 2)))) /\
  OnStateChange testConfig = None /\
  notified (trace cs (NewCircuitBreaker testConfig)) = [].
Proof.
  assert (H1 : OnStateChange (loggingConfig 2) <> None) by discriminate.
  assert (H2 : notified (trace (fails 6 10 ++ [at_time (11 + 60 * Second) fail])
                           (NewCircuitBreaker (loggingConfig 2)))
               = [(StateClosed, StateOpen); (StateOpen, StateHalfOpen);
                  (StateHalfOpen, StateOpen)]) by (vm_compute; reflexivity).
  assert (H3 : OnStateChange testConfig = None) by reflexivity.
  destruct (X10_observer_follows_state (loggingConfig 2)
              (fails 6 10 ++ [at_time (11 + 60 * Second) fail])) as [A _].
  destruct (X10_observer_follows_state testConfig
              (fails 6 10 ++ [at_time (11 + 60 * Second) fail])) as [_ B].
  exact (conj H1 (conj H2 (conj (A H1) (conj H3 (B H3))))).
Defined.

(** ** The text of a state *)

Lemma Sprintf_d_inj (v w : Z) :
  0 <= v -> 0 <= w -> Sprintf_d v = Sprintf_d w -> v = w.
Proof.
  intros Hv Hw H. unfold Sprintf_d in H.
  assert (N : forall n, N.to_uint n <> Decimal.Nil).
  { intros [|p]; [discriminate|]. apply DecimalPos.Unsigned.to_uint_nonnil. }
  assert (E : Some (N.to_uint (Z.to_N v)) = Some (N.to_uint (Z.to_N w))).
  { rewrite <- (NilZero.usu _ (N (Z.to_N v))),
            <- (NilZero.usu _ (N (Z.to_N w))).
    now rewrite H. }
  inversion E as [E']. apply DecimalN.Unsigned.to_uint_inj in E'.
  apply (f_equal Z.of_N) in E'. rewrite !Z2N.id in E' by assumption.
  exact E'.
Qed.

(** X11.  [State.String] gives "closed", "open" and "half-open" for the
    three states and is one-to-one on every value of the underlying
    unsigned type: two values with the same text are equal, the values
    that are no state included. *)
Theorem X11_String_one_to_one (v w : Z) :
  (forall s, State_String s = String_of_value (State_value s)) /\
  (0 <= v -> 0 <= w -> String_of_value v = String_of_value w -> v = w).
Proof.
  split; [intros []; reflexivity|].
  intros Hv Hw. unfold String_of_value.
  destruct (Z.eqb_spec v 0), (Z.eqb_spec v 2), (Z.eqb_spec v 1),
           (Z.eqb_spec w 0), (Z.eqb_spec w 2), (Z.eqb_spec w 1);
    try lia; try discriminate; simpl; intro H; try discriminate H.
  apply Sprintf_d_inj; try assumption.
  now inversion H.
Qed.

Lemma X11_String_one_to_one_witness :
  0 <= 7 /\ String_of_value 7 = "undefined state: 7"%string /\
  (String_of_value 7 = String_of_value 7 -> 7 = 7).
Proof.
  destruct (X11_String_one_to_one 7 7) as [_ H].
  assert (P : 0 <= 7) by lia.
  exact (conj P (conj eq_refl (H P P))).
Defined.

(** ** The test of the package *)

Lemma play_split (n : nat) (fs : list (Test -> Test)) (t : Test) :
  play fs t = play (skipn n fs) (play (firstn n fs) t).
Proof.
  unfold play. rewrite <- fold_left_app. now rewrite firstn_skipn.
Qed.

Lemma IsZero_positive (t : Time) : 0 < t -> IsZero t = false.
Proof. intro H. unfold IsZero, zeroTime. apply Z.eqb_neq. lia. Qed.

Lemma calling_open_waiting clks req expect g k p :
  state g = StateOpen -> now_entry (clks k) <= expiredAt g ->
  calling clks req expect (mkTest g k p)
  = mkTest g (S k) (p && expect (Some ErrOpenState)).
Proof.
  intros Hs Hle. unfold calling. simpl.
  now rewrite (Execute_open_waiting (clks k) req g Hs Hle).
Qed.

Lemma calling_open_elapsed clks req expect t k p :
  t < now_entry (clks k) ->
  calling clks req expect (mkTest (open_until t) k p)
  = calling clks req expect (mkTest on_probation k p).
Proof.
  intro Hlt. unfold calling. simpl guard. simpl made. simpl passing.
  destruct (Execute_after_checkExpiry (clks k) req (open_until t)) as [Ea Er].
  rewrite Ea, Er.
  rewrite (checkExpiry_elapsed (now_entry (clks k)) (open_until t) eq_refl Hlt).
  reflexivity.
Qed.

Lemma neg64_small (d : Z) : - two63 < d < two63 -> neg64 d = - d.
Proof.
  intro H. unfold neg64, wrap64.
  rewrite Z.mod_small by (unfold two63 in *; lia). lia.
Qed.

Lemma sleeping_open_until period t k p :
  0 < t -> - two63 < period < two63 ->
  sleeping period (mkTest (open_until t) k p)
  = mkTest (open_until (t + - period)) k p.
Proof.
  intros H Hp. unfold sleeping, pseudoSleep. simpl.
  now rewrite (IsZero_positive t H), (neg64_small period Hp).
Qed.

Lemma deadline_set_open_until t k p :
  0 < t ->
  deadline_is_zero false (mkTest (open_until t) k p)
  = mkTest (open_until t) k p.
Proof.
  intro H. unfold deadline_is_zero, assert. simpl.
  rewrite (IsZero_positive t H). simpl. now rewrite andb_true_r.
Qed.

Lemma counts_are_ok c g k p :
  Counts_eqb c (counts g) = true -> counts_are c (mkTest g k p) = mkTest g k p.
Proof.
  intro H. unfold counts_are, assert. simpl. now rewrite H, andb_true_r.
Qed.

Lemma state_is_ok s g k p :
  State_eqb s (state g) = true -> state_is s (mkTest g k p) = mkTest g k p.
Proof.
  intro H. unfold state_is, assert. simpl. now rewrite H, andb_true_r.
Qed.

(** The statements up to the trip: they do not look at the clock. *)
Lemma test_until_trip (clks : nat -> Clock) :
  play (firstn 12 (test_statements clks))
       (mkTest (NewCircuitBreaker testConfig) 0 true)
  = mkTest (open_until (now_outcome (clks 11%nat) + 60 * Second)) 12 true.
Proof. reflexivity. Qed.

(** The rejected calls and the two simulated sleeps. *)
Lemma test_while_open (clks : nat -> Clock) (t : Time) :
  0 < t ->
  now_entry (clks 12%nat) <= t + 60 * Second ->
  now_entry (clks 13%nat) <= t + 60 * Second ->
  play (firstn 7 (skipn 12 (test_statements clks)))
       (mkTest (open_until (t + 60 * Second)) 12 true)
  = mkTest (open_until (t + 60 * Second + - (59 * Second) + - (1 * Second)))
           14 true.
Proof.
  intros Hpos H12 H13.
  cbn [firstn skipn test_statements play fold_left].
  rewrite deadline_set_open_until by (unfold Second; lia).
  rewrite (calling_open_waiting clks succeed is_error
             (open_until (t + 60 * Second)) 12 true eq_refl H12).
  rewrite (calling_open_waiting clks fail is_error
             (open_until (t + 60 * Second)) 13 _ eq_refl H13).
  cbn [andb is_error is_nil negb].
  rewrite counts_are_ok by reflexivity.
  rewrite sleeping_open_until by (unfold Second, two63; lia).
  rewrite state_is_ok by reflexivity.
  rewrite sleeping_open_until by (unfold Second, two63; lia).
  reflexivity.
Qed.

(** A probe that succeeds followed by a call that fails. *)
Lemma test_probe_then_failure (clks : nat -> Clock) (k : nat) :
  state_is StateOpen
    (calling clks fail is_errServiceError
       (counts_are (mkCounts 1 1 0 1 0)
          (deadline_is_zero true
             (state_is StateHalfOpen
                (calling clks succeed is_nil (mkTest on_probation k true))))))
  = mkTest (open_until (now_outcome (clks (S k)) + 60 * Second)) (S (S k)) true.
Proof. reflexivity. Qed.

(** Two probes that succeed. *)
Lemma test_two_probes (clks : nat -> Clock) (k : nat) :
  passing
    (deadline_is_zero true
       (counts_are (mkCounts 0 0 0 0 0)
          (state_is StateClosed
             (calling clks succeed is_nil
                (counts_are (mkCounts 1 1 0 1 0)
                   (deadline_is_zero true
                      (state_is StateHalfOpen
                         (calling clks succeed is_nil
                            (mkTest on_probation k true)))))))))
  = true.
Proof. reflexivity. Qed.

Lemma test_second_trip (clks : nat -> Clock) (t : Time) :
  t < now_entry (clks 14%nat) ->
  0 < now_outcome (clks 15%nat) ->
  play (firstn 9 (skipn 7 (skipn 12 (test_statements clks))))
       (mkTest (open_until t) 14 true)
  = mkTest (open_until (now_outcome (clks 15%nat) + 60 * Second
                        + - (60 * Second))) 16 true.
Proof.
  intros Hlt Hpos.
  cbn [firstn skipn test_statements play fold_left].
  rewrite (calling_open_elapsed clks succeed is_nil t 14 true Hlt).
  rewrite test_probe_then_failure.
  rewrite deadline_set_open_until by (unfold Second; lia).
  rewrite counts_are_ok by reflexivity.
  rewrite sleeping_open_until by (unfold Second, two63; lia).
  reflexivity.
Qed.

Lemma test_recovery (clks : nat -> Clock) (t : Time) :
  t < now_entry (clks 16%nat) ->
  passing
    (play (skipn 9 (skipn 7 (skipn 12 (test_statements clks))))
          (mkTest (open_until t) 16 true)) = true.
Proof.
  intro Hlt.
  cbn [skipn test_statements play fold_left].
  rewrite (calling_open_elapsed clks succeed is_nil t 16 true Hlt).
  apply test_two_probes.
Qed.

(** X13.  [TestCircuitBreaker] passes under every clock that starts after
    the zero time, moves on between any two readings, and lets the
    eighteen calls of the test fit in sixty seconds. *)
Theorem X13_TestCircuitBreaker_passes (clks : nat -> Clock) :
  ticking clks 17 (60 * Second) -> TestCircuitBreaker clks = true.
Proof.
  intros (Hpos & Hstep & Hend).
  pose proof (Hstep 0%nat) as S0. pose proof (Hstep 1%nat) as S1.
  pose proof (Hstep 2%nat) as S2. pose proof (Hstep 3%nat) as S3.
  pose proof (Hstep 4%nat) as S4. pose proof (Hstep 5%nat) as S5.
  pose proof (Hstep 6%nat) as S6. pose proof (Hstep 7%nat) as S7.
  pose proof (Hstep 8%nat) as S8. pose proof (Hstep 9%nat) as S9.
  pose proof (Hstep 10%nat) as S10. pose proof (Hstep 11%nat) as S11.
  pose proof (Hstep 12%nat) as S12. pose proof (Hstep 13%nat) as S13.
  pose proof (Hstep 14%nat) as S14. pose proof (Hstep 15%nat) as S15.
  pose proof (Hstep 16%nat) as S16. pose proof (Hstep 17%nat) as S17.
  unfold Second in Hend.
  unfold TestCircuitBreaker.
  rewrite (play_split 12), test_until_trip.
  rewrite (play_split 7 (skipn 12 (test_statements clks))).
  rewrite test_while_open by (unfold Second; lia).
  rewrite (play_split 9 (skipn 7 (skipn 12 (test_statements clks)))).
  rewrite test_second_trip by (unfold Second; lia).
  apply test_recovery. unfold Second. lia.
Qed.

Lemma steady_ticking : ticking (steady 1) 17 (60 * Second).
Proof.
  unfold ticking. split; [reflexivity|]. split; [|vm_compute; discriminate].
  intro k. unfold steady. cbn [now_entry now_outcome].
  rewrite Nat2Z.inj_succ. lia.
Defined.

Lemma X13_TestCircuitBreaker_passes_witness :
  ticking (steady 1) 17 (60 * Second) /\ TestCircuitBreaker (steady 1) = true.
Proof.
  exact (conj steady_ticking
           (X13_TestCircuitBreaker_passes (steady 1) steady_ticking)).
Defined.

Lemma keeps_failure_assert (b : Test -> bool) :
  keeps_failure (fun t => assert (b t) t).
Proof. intros t H. unfold assert. simpl. now rewrite H. Qed.

Lemma keeps_failure_calling clks req expect :
  keeps_failure (calling clks req expect).
Proof. intros t H. unfold calling. simpl. now rewrite H. Qed.

Lemma keeps_failure_sleeping period : keeps_failure (sleeping period).
Proof. intros t H. exact H. Qed.

Lemma keeps_failure_times n f : keeps_failure f -> keeps_failure (times n f).
Proof.
  intro Hf. induction n as [|n IH]; intros t H; simpl; [exact H|].
  apply IH, Hf, H.
Qed.

Lemma keeps_failure_play fs :
  Forall keeps_failure fs -> keeps_failure (play fs).
Proof.
  intro H. induction H as [|f fs Hf Hfs IH]; intros t Ht; [exact Ht|].
  unfold play in *. simpl. apply IH, Hf, Ht.
Qed.

Lemma test_statements_keep_failure clks :
  Forall keeps_failure (test_statements clks).
Proof.
  unfold test_statements.
  repeat constructor;
    try apply keeps_failure_times;
    try apply keeps_failure_calling;
    try apply keeps_failure_sleeping;
    try (apply (keeps_failure_assert
                  (fun t => State_eqb _ (state (guard t)))));
    try (apply (keeps_failure_assert
                  (fun t => Counts_eqb _ (counts (guard t)))));
    try (apply (keeps_failure_assert
                  (fun t => Bool.eqb _ (IsZero (expiredAt (guard t)))))).
Qed.

Lemma Forall_skipn {A : Type} (P : A -> Prop) (n : nat) (l : list A) :
  Forall P l -> Forall P (skipn n l).
Proof.
  revert l. induction n as [|n IH]; intros l H; [exact H|].
  destruct l as [|x l]; [constructor|]. inversion H; subst. now apply IH.
Qed.

(** X14.  [TestCircuitBreaker] fails when the clock has not moved on
    between the trip and the first probe: the deadline check is strict, so
    the call after the simulated sixty seconds is still rejected. *)
Theorem X14_TestCircuitBreaker_needs_time (clks : nat -> Clock) :
  0 < now_outcome (clks 11%nat) ->
  now_entry (clks 12%nat) <= now_outcome (clks 11%nat) + 60 * Second ->
  now_entry (clks 13%nat) <= now_outcome (clks 11%nat) + 60 * Second ->
  now_entry (clks 14%nat) <= now_outcome (clks 11%nat) ->
  TestCircuitBreaker clks = false.
Proof.
  intros Hpos H12 H13 H14.
  unfold TestCircuitBreaker.
  rewrite (play_split 12), test_until_trip.
  rewrite (play_split 7 (skipn 12 (test_statements clks))).
  rewrite test_while_open by assumption.
  rewrite (play_split 1 (skipn 7 (skipn 12 (test_statements clks)))).
  apply keeps_failure_play.
  - repeat apply Forall_skipn. apply test_statements_keep_failure.
  - cbn [firstn skipn test_statements play fold_left].
    rewrite calling_open_waiting;
      [reflexivity|reflexivity|simpl; unfold Second; lia].
Qed.

Lemma X14_TestCircuitBreaker_needs_time_witness :
  0 < now_outcome (frozen 5 11%nat) /\
  now_entry (frozen 5 14%nat) <= now_outcome (frozen 5 11%nat) /\
  TestCircuitBreaker (frozen 5) = false.
Proof.
  assert (H0 : 0 < now_outcome (frozen 5 11%nat)) by reflexivity.
  assert (H12 : now_entry (frozen 5 12%nat)
                <= now_outcome (frozen 5 11%nat) + 60 * Second)
    by (vm_compute; discriminate).
  assert (H13 : now_entry (frozen 5 13%nat)
                <= now_outcome (frozen 5 11%nat) + 60 * Second)
    by (vm_compute; discriminate).
  assert (H14 : now_entry (frozen 5 14%nat) <= now_outcome (frozen 5 11%nat))
    by (vm_compute; discriminate).
  exact (conj H0 (conj H14
           (X14_TestCircuitBreaker_needs_time (frozen 5) H0 H12 H13 H14))).
Defined.

(** ** A dependency that never fails *)

Lemma Execute_closed_success clk req cb :
  state cb = StateClosed -> snd (req tt) = None ->
  Execute clk req cb =
    mkExec (req tt)
           (set_counts (Counts_onSuccess (Counts_onRequest (counts cb))) cb)
           [CallReq].
Proof.
  intros Hs Hok.
  assert (Hno : state cb <> StateOpen) by congruence.
  assert (Hadm : admission (fst (checkExpiry (now_entry clk) cb)) = None).
  { rewrite (checkExpiry_not_open _ _ Hno). unfold admission. simpl.
    rewrite Hs. reflexivity. }
  rewrite (Execute_admitted clk req cb Hadm).
  rewrite (checkExpiry_not_open _ _ Hno). simpl. rewrite Hs, Hok.
  reflexivity.
Qed.

Lemma closed_successes (cs : list Call) :
  forall cb m,
  all_succeed cs ->
  state cb = StateClosed ->
  counts cb = mkCounts m m 0 m 0 ->
  0 <= m ->
  state (run cs cb) = StateClosed /\
  expiredAt (run cs cb) = expiredAt cb /\
  replies cs cb = map (fun c => action c tt) cs /\
  trace cs cb = map (fun _ => CallReq) cs /\
  (m + Z.of_nat (List.length cs) < two32 ->
   counts (run cs cb) =
     mkCounts (m + Z.of_nat (List.length cs)) (m + Z.of_nat (List.length cs))
              0 (m + Z.of_nat (List.length cs)) 0).
Proof.
  induction cs as [|c cs IH]; intros cb m Hall Hs Hc Hm.
  - cbn [run fold_left replies trace map List.length Z.of_nat].
    rewrite Z.add_0_r.
    split; [exact Hs|]. split; [reflexivity|]. split; [reflexivity|].
    split; [reflexivity|]. intros _. exact Hc.
  - inversion Hall as [|c' cs' Hok Hrest]; subst.
    rewrite run_cons. simpl replies. simpl trace. simpl map. unfold step.
    rewrite (Execute_closed_success (clock c) (action c) cb Hs Hok).
    cbn [after ret calls].
    set (g := set_counts (Counts_onSuccess (Counts_onRequest (counts cb))) cb).
    assert (Gs : state g = StateClosed) by exact Hs.
    assert (Ge : expiredAt g = expiredAt cb) by reflexivity.
    assert (Gc : counts g = mkCounts (incr32 m) (incr32 m) 0 (incr32 m) 0).
    { unfold g. simpl. rewrite Hc. reflexivity. }
    destruct (IH g (incr32 m) Hrest Gs Gc (incr32_nonneg m))
      as (I1 & I2 & I3 & I4 & I5).
    split; [exact I1|]. split; [now rewrite I2|].
    split; [now rewrite I3|]. split; [simpl; now rewrite I4|].
    intro L.
    assert (Hlen : Z.of_nat (List.length (c :: cs))
                   = 1 + Z.of_nat (List.length cs))
      by (simpl List.length; lia).
    rewrite Hlen in *.
    assert (E : incr32 m = m + 1)
      by (apply (incr32_exact m (m + Z.of_nat (List.length cs))); lia).
    rewrite E in I5. rewrite I5 by lia. f_equal; lia.
Qed.

(** X16.  As long as no action fails the guard never leaves closed: after
    any number of successful calls on a fresh guard every call was
    admitted and returned what its action returned, only the actions were
    called (neither predicate nor observer), the deadline is still zero,
    and, below 2^32 calls, [Requests], [TotalSuccesses] and
    [ConsecutiveSuccesses] all equal the number of calls while both failure
    counters are zero. *)
Theorem X16_successes_keep_closed (cfg : Config) (cs : list Call) :
  all_succeed cs ->
  let cb := run cs (NewCircuitBreaker cfg) in
  let n := Z.of_nat (List.length cs) in
  state cb = StateClosed /\
  expiredAt cb = zeroTime /\
  replies cs (NewCircuitBreaker cfg) = map (fun c => action c tt) cs /\
  trace cs (NewCircuitBreaker cfg) = map (fun _ => CallReq) cs /\
  (n < two32 -> counts cb = mkCounts n n 0 n 0).
Proof.
  intro Hall. cbv zeta.
  destruct (closed_successes cs (NewCircuitBreaker cfg) 0 Hall eq_refl eq_refl
              (Z.le_refl 0)) as (H1 & H2 & H3 & H4 & H5).
  split; [exact H1|]. split; [exact H2|]. split; [exact H3|].
  split; [exact H4|]. intro L. apply H5. lia.
Qed.

Lemma X16_successes_keep_closed_witness :
  let cs := [at_time 1 succeed; at_time 2 (fun _ => (Box "ok", None));
             at_time 3 succeed] in
  all_succeed cs /\
  state (run cs (NewCircuitBreaker zeroThresholdConfig)) = StateClosed /\
  replies cs (NewCircuitBreaker zeroThresholdConfig)
    = [(Nil, None); (Box "ok", None); (Nil, None)] /\
  counts (run cs (NewCircuitBreaker zeroThresholdConfig))
    = mkCounts 3 3 0 3 0.
Proof.
  assert (Ha : all_succeed [at_time 1 succeed;
                            at_time 2 (fun _ => (Box "ok", None));
                            at_time 3 succeed]) by (repeat constructor).
  destruct (X16_successes_keep_closed zeroThresholdConfig _ Ha)
    as (H1 & _ & H3 & _ & H5).
  exact (conj Ha (conj H1 (conj H3 (H5 eq_refl)))).
Defined.

(** ** How many calls one call makes *)

(** X17.  One call of [Execute] calls the action at most once, the trip
    predicate at most once and the observer at most twice; it calls the
    observer twice only when the guard is open past its deadline on entry
    (it goes to half-open and, within the same call, on). *)
Theorem X17_calls_per_call (clk : Clock) (req : unit -> Outcome)
    (cb : CircuitBreaker) :
  let evs := calls (Execute clk req cb) in
  (count_events is_CallReq evs <= 1)%nat /\
  (count_events is_CallReadyToTrip evs <= 1)%nat /\
  (count_events is_CallOnStateChange evs <= 2)%nat /\
  (count_events is_CallOnStateChange evs = 2%nat ->
   state cb = StateOpen /\ expiredAt cb < now_entry clk).
Proof.
  unfold Execute, checkExpiry, admission, Before, count_events.
  destruct cb as [nm th tm rt hook st cn ex]; simpl.
  destruct (req tt) as [result [e|]], st, hook; simpl; split_guard_cases;
    (split; [lia|]); (split; [lia|]); (split; [lia|]);
    intro H; try discriminate H;
    (split; [reflexivity|]);
    match goal with
    | E : (_ <? _) = true |- _ => apply Z.ltb_lt in E; exact E
    end.
Qed.

Lemma X17_calls_per_call_witness :
  let g := run (fails 6 10) (NewCircuitBreaker (loggingConfig 2)) in
  let evs := calls (Execute (mkClock (11 + 60 * Second) (12 + 60 * Second))
                      fail g) in
  count_events is_CallOnStateChange evs = 2%nat /\
  state g = StateOpen /\
  expiredAt g < 11 + 60 * Second.
Proof.
  assert (H : count_events is_CallOnStateChange
                (calls (Execute (mkClock (11 + 60 * Second) (12 + 60 * Second))
                          fail
                          (run (fails 6 10)
                             (NewCircuitBreaker (loggingConfig 2))))) = 2%nat)
    by (vm_compute; reflexivity).
  destruct (X17_calls_per_call (mkClock (11 + 60 * Second) (12 + 60 * Second))
              fail (run (fails 6 10) (NewCircuitBreaker (loggingConfig 2))))
    as (_ & _ & _ & H4).
  exact (conj H (H4 H)).
Defined.

(** ** Calls whose action may panic *)

(** On an action that returns, the whole method is [Execute]. *)
Lemma ExecuteAny_returns clk req cb :
  ExecuteAny clk (fun u => Returns (req u)) cb
  = mkAttempt (Some (ret (Execute clk req cb))) (after (Execute clk req cb))
              (calls (Execute clk req cb)).
Proof.
  unfold ExecuteAny, Execute.
  destruct (checkExpiry (now_entry clk) cb) as [cb1 evs1].
  destruct (admission cb1); [reflexivity|].
  destruct (req tt) as [result [e|]].
  - destruct (onFailure _ _ _). reflexivity.
  - destruct (onSuccess _ _). reflexivity.
Qed.

Lemma step_any_as_call cb c :
  any_action c tt <> Panics -> step_any cb c = step cb (as_call c).
Proof.
  intro H. unfold step_any, step, ExecuteAny, Execute, as_call. simpl.
  destruct (checkExpiry _ cb) as [cb1 evs1].
  destruct (admission cb1); [reflexivity|].
  destruct (any_action c tt) as [[result [e|]]|]; [| |congruence].
  - destruct (onFailure _ _ _). reflexivity.
  - destruct (onSuccess _ _). reflexivity.
Qed.

Lemma run_any_cons c cs cb : run_any (c :: cs) cb = run_any cs (step_any cb c).
Proof. reflexivity. Qed.

Lemma run_any_as_run (cs : list AnyCall) :
  forall cb, never_panics cs -> run_any cs cb = run (map as_call cs) cb.
Proof.
  induction cs as [|c cs IH]; intros cb H; [reflexivity|].
  inversion H as [|c' cs' Hc Hcs]; subst.
  rewrite run_any_cons. simpl map. rewrite run_cons.
  rewrite (step_any_as_call cb c Hc). now apply IH.
Qed.

Lemma run_any_reachable cfg cs :
  never_panics cs -> reachable cfg (run_any cs (NewCircuitBreaker cfg)).
Proof.
  intro H. exists (map as_call cs). now apply run_any_as_run.
Qed.

(** The counters a call can leave behind, the panic of the action
    included. *)
Lemma ExecuteAny_counts clk req cb :
  let c := counts cb in
  let c' := counts (left_guard (ExecuteAny clk req cb)) in
  c' = c \/ c' = zeroCounts \/
  c' = Counts_onSuccess (Counts_onRequest c) \/
  c' = Counts_onFailure (Counts_onRequest c) \/
  c' = Counts_onRequest c \/
  c' = Counts_onSuccess (Counts_onRequest zeroCounts) \/
  c' = Counts_onFailure (Counts_onRequest zeroCounts) \/
  c' = Counts_onRequest zeroCounts.
Proof.
  unfold ExecuteAny, checkExpiry, admission.
  destruct cb as [nm th tm rt hook st c ex]; simpl.
  destruct (req tt) as [[result [e|]]|], st; simpl; split_guard_cases; tauto.
Qed.

Lemma counts_any_zero (n : Z) : 0 <= n -> counts_any_inv n zeroCounts.
Proof. intro H. unfold counts_any_inv. simpl. split; [now left|lia]. Qed.

Lemma counts_any_step (n : Z) (c : Counts) :
  0 <= n -> counts_any_inv n c ->
  counts_any_inv (n + 1) c /\
  counts_any_inv (n + 1) (Counts_onSuccess (Counts_onRequest c)) /\
  counts_any_inv (n + 1) (Counts_onFailure (Counts_onRequest c)) /\
  counts_any_inv (n + 1) (Counts_onRequest c).
Proof.
  unfold counts_any_inv. intros Hn [Hx Hb].
  split; [split; [exact Hx|intro L; destruct Hb as (B1 & B2 & B3 & B4); lia]|].
  split; [|split].
  - split; [now right|]. intro L. simpl.
    destruct Hb as (B1 & B2 & B3 & B4); [lia|].
    rewrite (incr32_exact (TotalSuccesses c) n),
            (incr32_exact (ConsecutiveSuccesses c) n),
            (incr32_exact (Requests c) n) by lia. lia.
  - split; [now left|]. intro L. simpl.
    destruct Hb as (B1 & B2 & B3 & B4); [lia|].
    rewrite (incr32_exact (TotalFailures c) n),
            (incr32_exact (ConsecutiveFailures c) n),
            (incr32_exact (Requests c) n) by lia. lia.
  - split; [exact Hx|]. intro L. simpl.
    destruct Hb as (B1 & B2 & B3 & B4); [lia|].
    rewrite (incr32_exact (Requests c) n) by lia. lia.
Qed.

Lemma step_any_counts_inv (n : Z) (cb : CircuitBreaker) (c : AnyCall) :
  0 <= n -> counts_any_inv n (counts cb) ->
  counts_any_inv (n + 1) (counts (step_any cb c)).
Proof.
  intros Hn H. unfold step_any.
  destruct (counts_any_step n (counts cb) Hn H) as (A1 & A2 & A3 & A4).
  destruct (counts_any_step n zeroCounts Hn (counts_any_zero n Hn))
    as (Z1 & Z2 & Z3 & Z4).
  destruct (ExecuteAny_counts (any_clock c) (any_action c) cb)
    as [E|[E|[E|[E|[E|[E|[E|E]]]]]]]; rewrite E; assumption.
Qed.

Lemma run_any_counts_inv (cs : list AnyCall) (n : Z) (cb : CircuitBreaker) :
  0 <= n -> counts_any_inv n (counts cb) ->
  counts_any_inv (n + Z.of_nat (List.length cs)) (counts (run_any cs cb)).
Proof.
  revert n cb. induction cs as [|c cs IH]; intros n cb Hn H.
  - simpl. now rewrite Z.add_0_r.
  - rewrite run_any_cons.
    replace (n + Z.of_nat (List.length (c :: cs)))
      with ((n + 1) + Z.of_nat (List.length cs))
      by (simpl List.length; lia).
    apply IH; [lia|]. now apply step_any_counts_inv.
Qed.

(** C1, as the code has it.  After any finite sequence of calls of
    [Execute] on a guard made by [NewCircuitBreaker], at most one of
    [ConsecutiveSuccesses] and [ConsecutiveFailures] is nonzero, whatever
    the actions do; and when no action of the sequence panics,
    [TotalSuccesses + TotalFailures == Requests] (the [uint32] sum of Go,
    and the exact sum below 2^32 calls).  When actions panic the outcomes
    recorded only stay at most the requests counted (below 2^32 calls). *)
Theorem C1_counters_unless_panic (cfg : Config) (cs : list AnyCall) :
  let c := counts (run_any cs (NewCircuitBreaker cfg)) in
  (ConsecutiveSuccesses c = 0 \/ ConsecutiveFailures c = 0) /\
  (Z.of_nat (List.length cs) < two32 ->
   TotalSuccesses c + TotalFailures c <= Requests c) /\
  (never_panics cs ->
   add32 (TotalSuccesses c) (TotalFailures c) = Requests c /\
   (Z.of_nat (List.length cs) < two32 ->
    TotalSuccesses c + TotalFailures c = Requests c)).
Proof.
  cbv zeta.
  pose proof (run_any_counts_inv cs 0 (NewCircuitBreaker cfg) (Z.le_refl 0)
                (counts_any_zero 0 (Z.le_refl 0))) as [Hx Hb].
  simpl Z.add in Hb.
  split; [exact Hx|]. split.
  - intro L. destruct (Hb L) as (_ & _ & B3 & _). exact B3.
  - intro Hnp. rewrite (run_any_as_run cs _ Hnp).
    destruct (reachable_counts cfg (map as_call cs)) as (R1 & _ & R3).
    rewrite length_map in R3. split; assumption.
Qed.

Lemma C1_counters_unless_panic_witness :
  let cs := [returning 1 fail; returning 2 succeed; returning 3 fail] in
  let c := counts (run_any cs (NewCircuitBreaker testConfig)) in
  never_panics cs /\ Z.of_nat (List.length cs) < two32 /\
  c = mkCounts 3 1 2 0 1 /\
  add32 (TotalSuccesses c) (TotalFailures c) = Requests c /\
  TotalSuccesses c + TotalFailures c = Requests c.
Proof.
  assert (Hn : never_panics [returning 1 fail; returning 2 succeed;
                             returning 3 fail])
    by (repeat constructor; discriminate).
  assert (Hl : Z.of_nat (List.length [returning 1 fail; returning 2 succeed;
                                      returning 3 fail]) < two32)
    by reflexivity.
  destruct (C1_counters_unless_panic testConfig
              [returning 1 fail; returning 2 succeed; returning 3 fail])
    as (_ & _ & H).
  destruct (H Hn) as [H1 H2].
  exact (conj Hn (conj Hl (conj eq_refl (conj H1 (H2 Hl))))).
Defined.

(** C1, as stated, fails when an action panics: on a fresh guard a call
    that succeeds followed by a call whose action panics (the caller
    recovering) leaves the counters 2, 1, 0, 1, 0, where one success and no
    failure stand against two requests. *)
Lemma C1_counterexample_panicking_action :
  let c := counts (run_any [returning 1 succeed; panicking 2]
                     (NewCircuitBreaker testConfig)) in
  c = mkCounts 2 1 0 1 0 /\
  add32 (TotalSuccesses c) (TotalFailures c) = 1 /\
  Requests c = 2 /\
  add32 (TotalSuccesses c) (TotalFailures c) <> Requests c.
Proof.
  vm_compute. repeat split; try reflexivity; intro H; discriminate H.
Qed.

(** ** The cap, when actions may panic *)

Lemma admission_is_guard_error cb e :
  admission cb = Some e -> e = ErrOpenState \/ e = ErrTooManyRequests.
Proof.
  unfold admission.
  destruct (State_eqb _ StateOpen); [left; congruence|].
  destruct (_ && _); [right; congruence|discriminate].
Qed.

Lemma count_CallReq_some (evs1 evs3 : list Event) :
  count_events is_CallReq (evs1 ++ CallReq :: evs3) <> 0%nat.
Proof.
  unfold count_events. rewrite filter_app, length_app. simpl. lia.
Qed.

Lemma admission_below_cap clk cb :
  1 <= requestThreshold cb -> probing_inv cb ->
  admission (fst (checkExpiry (now_entry clk) cb)) <> Some ErrTooManyRequests.
Proof.
  intros Hth P. destruct (state cb) eqn:Es.
  - rewrite checkExpiry_not_open by congruence. unfold admission. simpl.
    rewrite Es. discriminate.
  - destruct (Z.lt_ge_cases (expiredAt cb) (now_entry clk)) as [L|L].
    + rewrite (checkExpiry_elapsed _ _ Es L). unfold admission. simpl.
      assert (E : (requestThreshold cb <=? 0) = false)
        by (apply Z.leb_gt; lia).
      rewrite E. discriminate.
    + rewrite (checkExpiry_waiting _ _ L). unfold admission. simpl.
      rewrite Es. discriminate.
  - rewrite checkExpiry_not_open by congruence. unfold admission. simpl.
    rewrite Es. simpl. destruct (P Es) as [_ P2].
    assert (E : (requestThreshold cb <=? Requests (counts cb)) = false)
      by (apply Z.leb_gt; exact P2).
    rewrite E. discriminate.
Qed.

(** C10, as the code has it.  On a guard made with [RequestThreshold >= 1],
    after any sequence of calls none of whose actions panicked, a half-open
    guard has [Requests = ConsecutiveSuccesses < requestThreshold]; so the
    next call, whatever its action does, is never turned away at the cap:
    when [Execute] does not call the action it returns [ErrOpenState], and
    it returns [ErrTooManyRequests] only if the action itself returned
    it. *)
Theorem C10_cap_never_hit_unless_panic (cfg : Config) (cs : list AnyCall)
    (c : AnyCall) :
  1 <= RequestThreshold cfg ->
  never_panics cs ->
  let cb := run_any cs (NewCircuitBreaker cfg) in
  let r := ExecuteAny (any_clock c) (any_action c) cb in
  (state cb = StateHalfOpen ->
   Requests (counts cb) = ConsecutiveSuccesses (counts cb) /\
   Requests (counts cb) < requestThreshold cb) /\
  admission (fst (checkExpiry (now_entry (any_clock c)) cb))
    <> Some ErrTooManyRequests /\
  (count_events is_CallReq (made_calls r) = 0%nat ->
   reply r = Some (Nil, Some ErrOpenState)) /\
  (forall v, reply r = Some (v, Some ErrTooManyRequests) ->
   any_action c tt = Returns (v, Some ErrTooManyRequests)).
Proof.
  intros Hth Hnp. cbv zeta.
  pose proof (run_any_reachable cfg cs Hnp) as Hr.
  set (cb := run_any cs (NewCircuitBreaker cfg)) in *.
  pose proof (reachable_probing_inv cfg cb Hth Hr) as P.
  assert (T : requestThreshold cb = RequestThreshold cfg).
  { destruct Hr as [ds Hd]. rewrite Hd.
    destruct (run_settings ds (NewCircuitBreaker cfg)) as (_ & T & _).
    now rewrite <- T. }
  assert (A : admission (fst (checkExpiry (now_entry (any_clock c)) cb))
              <> Some ErrTooManyRequests)
    by (apply admission_below_cap; [lia|exact P]).
  split; [exact P|]. split; [exact A|].
  unfold ExecuteAny.
  destruct (checkExpiry (now_entry (any_clock c)) cb) as [cb1 evs1].
  simpl fst in A.
  destruct (admission cb1) as [e|] eqn:Hadm.
  - destruct (admission_is_guard_error cb1 e Hadm) as [-> | ->];
      [|congruence].
    simpl. split; [reflexivity|]. intros v H. discriminate H.
  - destruct (any_action c tt) as [[result [e|]]|].
    + destruct (onFailure _ _ _). simpl. split.
      * intro H. now apply count_CallReq_some in H.
      * intros v H. inversion H. reflexivity.
    + destruct (onSuccess _ _). simpl. split.
      * intro H. now apply count_CallReq_some in H.
      * intros v H. discriminate H.
    + simpl. split.
      * intro H. now apply count_CallReq_some in H.
      * intros v H. discriminate H.
Qed.

Lemma C10_cap_never_hit_unless_panic_witness :
  let cs := [returning 10 fail; returning 10 fail; returning 10 fail;
             returning 10 fail; returning 10 fail; returning 10 fail;
             returning (11 + 60 * Second) succeed] in
  let cb := run_any cs (NewCircuitBreaker testConfig) in
  let r := ExecuteAny (mkClock (12 + 60 * Second) 0) (fun _ => Panics) cb in
  1 <= RequestThreshold testConfig /\ never_panics cs /\
  state cb = StateHalfOpen /\
  Requests (counts cb) = ConsecutiveSuccesses (counts cb) /\
  Requests (counts cb) < requestThreshold cb /\
  admission (fst (checkExpiry (12 + 60 * Second) cb))
    <> Some ErrTooManyRequests.
Proof.
  set (cs := [returning 10 fail; returning 10 fail; returning 10 fail;
              returning 10 fail; returning 10 fail; returning 10 fail;
              returning (11 + 60 * Second) succeed]).
  assert (Hth : 1 <= RequestThreshold testConfig) by (vm_compute; discriminate).
  assert (Hn : never_panics cs) by (repeat constructor; discriminate).
  assert (Hs : state (run_any cs (NewCircuitBreaker testConfig))
               = StateHalfOpen) by (vm_compute; reflexivity).
  destruct (C10_cap_never_hit_unless_panic testConfig cs
              (mkAnyCall (mkClock (12 + 60 * Second) 0) (fun _ => Panics))
              Hth Hn) as (H1 & H2 & _).
  destruct (H1 Hs) as [H3 H4].
  exact (conj Hth (conj Hn (conj Hs (conj H3 (conj H4 H2))))).
Defined.

(** C10, as stated, fails when a probe panics.  With a threshold of 1 the
    guard opens on the sixth failure; the first call after the deadline is
    admitted as a probe and its action panics, which leaves the guard
    half-open with one request counted and no outcome; the next call is
    turned away with [ErrTooManyRequests] without its action being
    called. *)
Lemma C10_counterexample_panicking_probe :
  let cs := [returning 10 fail; returning 10 fail; returning 10 fail;
             returning 10 fail; returning 10 fail; returning 10 fail;
             panicking (11 + 60 * Second)] in
  let cb := run_any cs (NewCircuitBreaker (loggingConfig 1)) in
  let r := ExecuteAny (mkClock (12 + 60 * Second) (13 + 60 * Second))
             (fun _ => Returns (Nil, None)) cb in
  1 <= RequestThreshold (loggingConfig 1) /\
  state cb = StateHalfOpen /\ counts cb = mkCounts 1 0 0 0 0 /\
  reply r = Some (Nil, Some ErrTooManyRequests) /\
  made_calls r = [] /\
  left_guard r = cb.
Proof.
  vm_compute. repeat split; try reflexivity. intro H; discriminate H.
Qed.

(** ** The deadline check inside [Execute] *)

Lemma Execute_counts_action clk req cb :
  admission (fst (checkExpiry (now_entry clk) cb)) = None ->
  ret (Execute clk req cb) = req tt /\
  count_events is_CallReq (calls (Execute clk req cb)) = 1%nat.
Proof.
  intro Hadm. rewrite (Execute_admitted clk req cb Hadm). simpl.
  split; [reflexivity|].
  apply count_CallReq_admitted; [apply checkExpiry_events|].
  intros e Hin. destruct (snd (req tt)).
  - now apply onFailure_events in Hin.
  - apply onSuccess_events in Hin. now destruct e.
Qed.

Lemma Execute_turns_away clk req cb e :
  admission (fst (checkExpiry (now_entry clk) cb)) = Some e ->
  ret (Execute clk req cb) = (Nil, Some e) /\
  count_events is_CallReq (calls (Execute clk req cb)) = 0%nat.
Proof.
  intro Hadm. rewrite (Execute_rejected clk req cb e Hadm). simpl.
  split; [reflexivity|]. apply no_CallReq, checkExpiry_events.
Qed.

(** C2, as the code has it.  For a guard in state open, a call of
    [Execute] made at a time strictly later than [expiredAt] first clears
    the deadline and moves the guard to half-open, counters reset and the
    observer told, and then goes on exactly as [Execute] does on that
    half-open guard with nothing counted: with a threshold of zero the
    call is turned away with [ErrTooManyRequests], otherwise the action is
    called once and its pair returned.  A call made at a time equal to (or
    earlier than) the deadline changes nothing and is rejected with
    [ErrOpenState]. *)
Theorem C2_deadline_check_strict (clk : Clock) (req : unit -> Outcome)
    (cb : CircuitBreaker) :
  state cb = StateOpen ->
  (expiredAt cb < now_entry clk ->
   let cb1 := fst (checkExpiry (now_entry clk) cb) in
   let probing :=
     mkCB (name cb) (requestThreshold cb) (timeout cb) (readyToTrip cb)
          (onStateChange cb) StateHalfOpen zeroCounts zeroTime in
   let told :=
     match onStateChange cb with
     | Some _ =>
         [CallOnStateChange (name cb) StateOpen StateHalfOpen
            (mkSnapshot StateHalfOpen (counts cb) zeroTime)]
     | None => []
     end in
   state cb1 = StateHalfOpen /\ expiredAt cb1 = zeroTime /\
   counts cb1 = zeroCounts /\
   admission cb1 =
     (if requestThreshold cb <=? 0 then Some ErrTooManyRequests else None) /\
   Execute clk req cb =
     mkExec (ret (Execute clk req probing)) (after (Execute clk req probing))
            (told ++ calls (Execute clk req probing)) /\
   (requestThreshold cb <= 0 ->
    Execute clk req cb = mkExec (Nil, Some ErrTooManyRequests) probing told) /\
   (0 < requestThreshold cb ->
    ret (Execute clk req cb) = req tt /\
    count_events is_CallReq (calls (Execute clk req cb)) = 1%nat /\
    state (after (Execute clk req cb)) =
      match snd (req tt) with
      | Some _ => StateOpen
      | None => if requestThreshold cb <=? 1 then StateClosed
                else StateHalfOpen
      end)) /\
  (now_entry clk <= expiredAt cb ->
   fst (checkExpiry (now_entry clk) cb) = cb /\
   Execute clk req cb = mkExec (Nil, Some ErrOpenState) cb []).
Proof.
  intro Hs. split.
  - intro Hlt. cbv zeta.
    pose proof (checkExpiry_elapsed _ _ Hs Hlt) as E.
    set (probing := mkCB (name cb) (requestThreshold cb) (timeout cb)
                      (readyToTrip cb) (onStateChange cb) StateHalfOpen
                      zeroCounts zeroTime) in *.
    set (told := match onStateChange cb with
                 | Some _ =>
                     [CallOnStateChange (name cb) StateOpen StateHalfOpen
                        (mkSnapshot StateHalfOpen (counts cb) zeroTime)]
                 | None => []
                 end) in *.
    assert (Ep : checkExpiry (now_entry clk) probing = (probing, []))
      by (apply checkExpiry_not_open; discriminate).
    assert (Ea : admission probing =
                 (if requestThreshold cb <=? 0
                  then Some ErrTooManyRequests else None)) by reflexivity.
    rewrite E. simpl fst.
    split; [reflexivity|]. split; [reflexivity|]. split; [reflexivity|].
    split; [exact Ea|]. split; [|split].
    + unfold Execute. rewrite E, Ep.
      destruct (admission probing);
        [simpl; now rewrite app_nil_r|].
      destruct (req tt) as [result [e|]].
      * destruct (onFailure _ _ _). reflexivity.
      * destruct (onSuccess _ _). reflexivity.
    + intro L. apply Z.leb_le in L. rewrite L in Ea.
      rewrite (Execute_rejected clk req cb ErrTooManyRequests);
        rewrite E; simpl; [reflexivity|exact Ea].
    + intro L. apply Z.leb_gt in L. rewrite L in Ea.
      assert (Hadm : admission (fst (checkExpiry (now_entry clk) cb)) = None)
        by (rewrite E; exact Ea).
      destruct (Execute_counts_action clk req cb Hadm) as [R1 R2].
      split; [exact R1|]. split; [exact R2|].
      rewrite (Execute_admitted clk req cb Hadm). rewrite E. simpl.
      destruct (snd (req tt)) as [e|].
      * unfold onFailure.
        rewrite setState_changes by (simpl; discriminate). reflexivity.
      * unfold onSuccess. simpl.
        change (incr32 0) with 1.
        destruct (requestThreshold cb <=? 1); [|reflexivity].
        rewrite setState_changes by (simpl; discriminate). reflexivity.
  - intro Hle. rewrite (checkExpiry_waiting _ _ Hle). simpl.
    split; [reflexivity|].
    rewrite (Execute_rejected clk req cb ErrOpenState);
      rewrite (checkExpiry_waiting _ _ Hle); simpl; [reflexivity|].
    unfold admission. now rewrite Hs.
Qed.

Lemma C2_deadline_check_strict_witness :
  let late := Execute (mkClock (expiredAt tripped + 1) 0) succeed tripped in
  state tripped = StateOpen /\
  expiredAt tripped < expiredAt tripped + 1 /\
  0 < requestThreshold tripped /\
  ret late = (Nil, None) /\
  count_events is_CallReq (calls late) = 1%nat /\
  state (after late) = StateHalfOpen /\
  expiredAt tripped - 1 <= expiredAt tripped /\
  Execute (mkClock (expiredAt tripped - 1) 0) succeed tripped
    = mkExec (Nil, Some ErrOpenState) tripped [].
Proof.
  assert (Hs : state tripped = StateOpen) by reflexivity.
  assert (Hlt : expiredAt tripped < expiredAt tripped + 1) by lia.
  assert (Hle : expiredAt tripped - 1 <= expiredAt tripped) by lia.
  assert (Hth : 0 < requestThreshold tripped) by reflexivity.
  destruct (C2_deadline_check_strict
              (mkClock (expiredAt tripped + 1) 0) succeed tripped Hs)
    as [Ha _].
  destruct (C2_deadline_check_strict
              (mkClock (expiredAt tripped - 1) 0) succeed tripped Hs)
    as [_ Hb].
  destruct (Ha Hlt) as (_ & _ & _ & _ & _ & _ & H7).
  destruct (H7 Hth) as (R1 & R2 & R3).
  destruct (Hb Hle) as (_ & H2).
  exact (conj Hs (conj Hlt (conj Hth (conj R1 (conj R2 (conj R3
           (conj Hle H2))))))).
Defined.

(** ** When [Execute] turns a call away *)

(** X1.  [Execute] returns [nil] and [ErrOpenState] without calling the
    action exactly when the guard is open and the clock is not past the
    deadline; it returns [nil] and [ErrTooManyRequests] without calling the
    action exactly when the guard is half-open with
    [Requests >= requestThreshold], or is open past its deadline with a
    threshold of zero (or less); in every other case it calls the action
    once.  A half-open guard at its cap is left as it was and none of the
    caller's functions is called. *)
Theorem X1_when_rejected (clk : Clock) (req : unit -> Outcome)
    (cb : CircuitBreaker) :
  let r := Execute clk req cb in
  let open_wait := state cb = StateOpen /\ now_entry clk <= expiredAt cb in
  let at_cap :=
    (state cb = StateHalfOpen /\ requestThreshold cb <= Requests (counts cb)) \/
    (state cb = StateOpen /\ expiredAt cb < now_entry clk /\
     requestThreshold cb <= 0) in
  (ret r = (Nil, Some ErrOpenState) /\
   count_events is_CallReq (calls r) = 0%nat <-> open_wait) /\
  (ret r = (Nil, Some ErrTooManyRequests) /\
   count_events is_CallReq (calls r) = 0%nat <-> at_cap) /\
  (~ open_wait -> ~ at_cap ->
   ret r = req tt /\ count_events is_CallReq (calls r) = 1%nat) /\
  (state cb = StateHalfOpen ->
   requestThreshold cb <= Requests (counts cb) ->
   r = mkExec (Nil, Some ErrTooManyRequests) cb []).
Proof.
  cbv zeta.
  destruct (admission_verdicts clk req cb) as (V1 & V2 & V3).
  destruct (admission (fst (checkExpiry (now_entry clk) cb))) as [e|] eqn:Hadm.
  - destruct (Execute_turns_away clk req cb e Hadm) as [R1 R2].
    split; [|split; [|split]].
    + split.
      * intros [H _]. apply V1. rewrite R1 in H. congruence.
      * intro H. apply V1 in H. inversion H; subst. now split.
    + split.
      * intros [H _]. apply V2. rewrite R1 in H. congruence.
      * intro H. apply V2 in H. inversion H; subst. now split.
    + intros N1 N2. exfalso.
      destruct (admission_is_guard_error _ e Hadm) as [-> | ->].
      * apply N1, V1. reflexivity.
      * apply N2, V2. reflexivity.
    + exact V3.
  - destruct (Execute_counts_action clk req cb Hadm) as [R1 R2].
    split; [|split; [|split]].
    + split.
      * intros [_ H]. rewrite R2 in H. discriminate H.
      * intro H. apply V1 in H. discriminate H.
    + split.
      * intros [_ H]. rewrite R2 in H. discriminate H.
      * intro H. apply V2 in H. discriminate H.
    + intros _ _. now split.
    + exact V3.
Qed.

Lemma X1_when_rejected_witness :
  let cb := run [at_time (11 + 60 * Second) succeed]
                (run (fails 6 10) (NewCircuitBreaker zeroThresholdConfig)) in
  state cb = StateHalfOpen /\
  requestThreshold cb <= Requests (counts cb) /\
  Execute (mkClock 5 6) succeed cb
    = mkExec (Nil, Some ErrTooManyRequests) cb [] /\
  ~ (state tripped = StateOpen /\ 1 + expiredAt tripped <= expiredAt tripped) /\
  count_events is_CallReq
    (calls (Execute (mkClock (1 + expiredAt tripped) 0) succeed tripped))
  = 1%nat.
Proof.
  set (g := run [at_time (11 + 60 * Second) succeed]
              (run (fails 6 10) (NewCircuitBreaker zeroThresholdConfig))).
  assert (Hs : state g = StateHalfOpen) by reflexivity.
  assert (Hc : requestThreshold g <= Requests (counts g))
    by (vm_compute; discriminate).
  assert (N1 : ~ (state tripped = StateOpen /\
                  now_entry (mkClock (1 + expiredAt tripped) 0)
                  <= expiredAt tripped)).
  { intros [_ H]. vm_compute in H. apply H. reflexivity. }
  assert (N2 : ~ ((state tripped = StateHalfOpen /\
                   requestThreshold tripped <= Requests (counts tripped)) \/
                  (state tripped = StateOpen /\
                   expiredAt tripped
                   < now_entry (mkClock (1 + expiredAt tripped) 0) /\
                   requestThreshold tripped <= 0))).
  { intros [[H _]|(_ & _ & H)]; vm_compute in H;
      [discriminate H|apply H; reflexivity]. }
  destruct (X1_when_rejected (mkClock 5 6) succeed g) as (_ & _ & _ & H).
  destruct (X1_when_rejected (mkClock (1 + expiredAt tripped) 0) succeed
              tripped) as (_ & _ & K & _).
  destruct (K N1 N2) as [_ K2].
  exact (conj Hs (conj Hc (conj (H Hs Hc) (conj N1 K2)))).
Defined.

(** ** Invariants that survive a panic, and those that do not *)

Lemma run_any_ind (cfg : Config) (P : CircuitBreaker -> Prop) :
  P (NewCircuitBreaker cfg) ->
  (forall cb c, P cb -> P (step_any cb c)) ->
  forall cs, P (run_any cs (NewCircuitBreaker cfg)).
Proof.
  intros Hnew Hstep cs. unfold run_any.
  generalize (NewCircuitBreaker cfg) Hnew.
  induction cs as [|c cs IH]; intros cb0 H0; simpl; [exact H0|].
  apply IH, Hstep, H0.
Qed.

Lemma step_any_open_inv cb c : open_inv cb -> open_inv (step_any cb c).
Proof.
  unfold open_inv, step_any, ExecuteAny, checkExpiry, admission.
  destruct cb as [nm th tm rt hook st cn ex]; simpl. intro H.
  destruct (any_action c tt) as [[result [e|]]|], st; simpl;
    split_guard_cases;
    try discriminate; intros _; try reflexivity; now apply H.
Qed.

Lemma step_any_half_open_inv cb c :
  half_open_any_inv cb -> half_open_any_inv (step_any cb c).
Proof.
  unfold half_open_any_inv, step_any, ExecuteAny, checkExpiry, admission.
  destruct cb as [nm th tm rt hook st cn ex]; simpl. intro H.
  destruct (any_action c tt) as [[result [e|]]|], st; simpl;
    split_guard_cases;
    try discriminate; intros _; simpl;
    try (repeat split; reflexivity); try (now apply H).
  destruct H as (H1 & H2 & H3); [reflexivity|].
  rewrite H3. repeat split; assumption.
Qed.

(** X5.  After any run from a fresh guard, panicking actions included:
    while the guard is open all five counters are zero; while it is
    half-open no failure is on the counters and [TotalSuccesses] equals
    [ConsecutiveSuccesses].  When no action of the run panicked, a
    half-open guard has moreover [Requests] equal to both. *)
Theorem X5_counters_by_state (cfg : Config) (cs : list AnyCall) :
  let cb := run_any cs (NewCircuitBreaker cfg) in
  (state cb = StateOpen -> counts cb = zeroCounts) /\
  (state cb = StateHalfOpen ->
   TotalFailures (counts cb) = 0 /\ ConsecutiveFailures (counts cb) = 0 /\
   TotalSuccesses (counts cb) = ConsecutiveSuccesses (counts cb)) /\
  (never_panics cs -> state cb = StateHalfOpen ->
   TotalSuccesses (counts cb) = Requests (counts cb) /\
   ConsecutiveSuccesses (counts cb) = Requests (counts cb)).
Proof.
  cbv zeta.
  assert (G : open_inv (run_any cs (NewCircuitBreaker cfg)) /\
              half_open_any_inv (run_any cs (NewCircuitBreaker cfg))).
  { apply (run_any_ind cfg (fun cb => open_inv cb /\ half_open_any_inv cb)).
    - split; intro H; discriminate H.
    - intros cb c [H1 H2]. split.
      + now apply step_any_open_inv.
      + now apply step_any_half_open_inv. }
  destruct G as [G1 G2]. split; [exact G1|]. split; [exact G2|].
  intros Hnp Hs.
  assert (H : half_open_inv (run_any cs (NewCircuitBreaker cfg))).
  { generalize (run_any_reachable cfg cs Hnp).
    generalize (run_any cs (NewCircuitBreaker cfg)).
    apply (reachable_ind cfg half_open_inv).
    - intro H. discriminate H.
    - intros cb c. apply step_half_open_inv. }
  destruct (H Hs) as (_ & _ & H3 & H4). now split.
Qed.

Lemma X5_counters_by_state_witness :
  let cs := [returning 10 fail; returning 10 fail; returning 10 fail;
             returning 10 fail; returning 10 fail; returning 10 fail;
             returning (11 + 60 * Second) succeed] in
  let cb := run_any cs (NewCircuitBreaker testConfig) in
  let probe_panicked :=
    run_any [returning 10 fail; returning 10 fail; returning 10 fail;
             returning 10 fail; returning 10 fail; returning 10 fail;
             panicking (11 + 60 * Second)] (NewCircuitBreaker testConfig) in
  never_panics cs /\ state cb = StateHalfOpen /\
  TotalSuccesses (counts cb) = Requests (counts cb) /\
  state probe_panicked = StateHalfOpen /\
  counts probe_panicked = mkCounts 1 0 0 0 0 /\
  TotalSuccesses (counts probe_panicked)
  = ConsecutiveSuccesses (counts probe_panicked).
Proof.
  set (cs := [returning 10 fail; returning 10 fail; returning 10 fail;
              returning 10 fail; returning 10 fail; returning 10 fail;
              returning (11 + 60 * Second) succeed]).
  set (ps := [returning 10 fail; returning 10 fail; returning 10 fail;
              returning 10 fail; returning 10 fail; returning 10 fail;
              panicking (11 + 60 * Second)]).
  assert (Hn : never_panics cs) by (repeat constructor; discriminate).
  assert (Hs : state (run_any cs (NewCircuitBreaker testConfig))
               = StateHalfOpen) by (vm_compute; reflexivity).
  assert (Hp : state (run_any ps (NewCircuitBreaker testConfig))
               = StateHalfOpen) by (vm_compute; reflexivity).
  assert (Hc : counts (run_any ps (NewCircuitBreaker testConfig))
               = mkCounts 1 0 0 0 0) by (vm_compute; reflexivity).
  destruct (X5_counters_by_state testConfig cs) as (_ & _ & A).
  destruct (X5_counters_by_state testConfig ps) as (_ & B & _).
  destruct (A Hn Hs) as [A1 _]. destruct (B Hp) as (_ & _ & B3).
  exact (conj Hn (conj Hs (conj A1 (conj Hp (conj Hc B3))))).
Defined.

(** X6.  After any run from a fresh guard in which no action panicked, a
    closed guard whose current streak is one of failures holds counters on
    which the trip predicate answers false: had it answered true the guard
    would be open. *)
Theorem X6_closed_means_not_tripped (cfg : Config) (cs : list AnyCall) :
  never_panics cs ->
  let cb := run_any cs (NewCircuitBreaker cfg) in
  state cb = StateClosed ->
  ConsecutiveFailures (counts cb) <> 0 ->
  readyToTrip cb (counts cb) = false.
Proof.
  intro Hnp. cbv zeta.
  generalize (run_any_reachable cfg cs Hnp).
  generalize (run_any cs (NewCircuitBreaker cfg)).
  apply (reachable_ind cfg untripped_inv).
  - intros _ H. exfalso. apply H. reflexivity.
  - intros cb c. apply step_untripped_inv.
Qed.

Lemma X6_closed_means_not_tripped_witness :
  let cs := [returning 10 fail; returning 10 fail; returning 10 fail] in
  let cb := run_any cs (NewCircuitBreaker testConfig) in
  never_panics cs /\ state cb = StateClosed /\
  ConsecutiveFailures (counts cb) <> 0 /\
  readyToTrip cb (counts cb) = false.
Proof.
  set (cs := [returning 10 fail; returning 10 fail; returning 10 fail]).
  assert (Hn : never_panics cs) by (repeat constructor; discriminate).
  assert (Hs : state (run_any cs (NewCircuitBreaker testConfig))
               = StateClosed) by (vm_compute; reflexivity).
  assert (Hc : ConsecutiveFailures
                 (counts (run_any cs (NewCircuitBreaker testConfig))) <> 0)
    by (vm_compute; discriminate).
  exact (conj Hn (conj Hs (conj Hc
           (X6_closed_means_not_tripped testConfig cs Hn Hs Hc)))).
Defined.

(** ** What the trip predicate is given, panics included *)

Lemma CallReadyToTrip_argument_any clk req cb k :
  In (CallReadyToTrip k) (made_calls (ExecuteAny clk req cb)) ->
  k = Counts_onFailure (Counts_onRequest (counts cb)).
Proof.
  unfold ExecuteAny, checkExpiry, admission.
  destruct cb as [nm th tm rt hook st cn ex]; simpl.
  destruct (req tt) as [[result [e|]]|], st; simpl; split_guard_cases;
    destruct hook; simpl; intro H;
    repeat match goal with
    | H : _ \/ _ |- _ => destruct H as [H|H]
    | H : False |- _ => destruct H
    | H : CallReadyToTrip _ = CallReadyToTrip _ |- _ =>
        inversion H; reflexivity
    | H : _ = CallReadyToTrip _ |- _ => discriminate H
    end.
Qed.

(** X15.  What [readyToTrip] is given.  On a guard that has served fewer
    than 2^32 - 1 calls since it was made, panicking actions included, the
    counters passed to the trip predicate always include the failure at
    hand: [ConsecutiveFailures] and [TotalFailures] are at least 1, the
    streak of successes is 0, the streak of failures is at most the total
    of failures, and successes and failures together are at most the
    requests; they add up to the requests when no action panicked. *)
Theorem X15_trip_predicate_argument (cfg : Config) (cs : list AnyCall)
    (c : AnyCall) (k : Counts) :
  Z.of_nat (List.length cs) + 1 < two32 ->
  In (CallReadyToTrip k)
     (made_calls (ExecuteAny (any_clock c) (any_action c)
                    (run_any cs (NewCircuitBreaker cfg)))) ->
  1 <= ConsecutiveFailures k <= TotalFailures k /\
  ConsecutiveSuccesses k = 0 /\
  0 <= TotalSuccesses k /\
  TotalSuccesses k + TotalFailures k <= Requests k /\
  Requests k <= Z.of_nat (List.length cs) + 1 /\
  (never_panics cs -> TotalSuccesses k + TotalFailures k = Requests k).
Proof.
  intros Hlen Hin.
  apply CallReadyToTrip_argument_any in Hin. subst k.
  pose proof (run_any_counts_inv cs 0 (NewCircuitBreaker cfg) (Z.le_refl 0)
                (counts_any_zero 0 (Z.le_refl 0))) as Hc.
  simpl Z.add in Hc.
  set (n := Z.of_nat (List.length cs)) in *.
  assert (Hn : 0 <= n) by (unfold n; lia).
  destruct (counts_any_step n _ Hn Hc) as (_ & _ & [_ S3] & _).
  destruct (S3 Hlen) as (F1 & F2 & F3 & F4).
  destruct Hc as [_ Hb]. destruct Hb as (B1 & B2 & B3 & B4); [lia|].
  simpl in F1, F2, F3, F4.
  assert (E : incr32 (ConsecutiveFailures
                        (counts (run_any cs (NewCircuitBreaker cfg))))
              = ConsecutiveFailures
                  (counts (run_any cs (NewCircuitBreaker cfg))) + 1)
    by (apply (incr32_exact _ n); lia).
  simpl. rewrite E in *.
  split; [lia|]. split; [reflexivity|]. split; [lia|].
  split; [exact F3|]. split; [exact F4|].
  intro Hnp. rewrite (run_any_as_run cs _ Hnp).
  pose proof (run_counts_inv (map as_call cs) 0 (NewCircuitBreaker cfg)
                (Z.le_refl 0) (counts_inv_zero 0 (Z.le_refl 0))) as Hi.
  simpl Z.add in Hi. rewrite length_map in Hi. fold n in Hi.
  destruct (counts_inv_failure n _ Hi) as (_ & _ & _ & _ & C5).
  destruct (C5 Hlen) as [C6 _]. exact C6.
Qed.

Lemma X15_trip_predicate_argument_witness :
  let cs := [returning 1 succeed; panicking 2] in
  let c := returning 3 fail in
  let k := mkCounts 3 1 1 0 1 in
  Z.of_nat (List.length cs) + 1 < two32 /\
  In (CallReadyToTrip k)
     (made_calls (ExecuteAny (any_clock c) (any_action c)
                    (run_any cs (NewCircuitBreaker testConfig)))) /\
  1 <= ConsecutiveFailures k <= TotalFailures k /\
  TotalSuccesses k + TotalFailures k <= Requests k.
Proof.
  assert (Hl : Z.of_nat (List.length [returning 1 succeed; panicking 2]) + 1
               < two32) by reflexivity.
  assert (Hi : In (CallReadyToTrip (mkCounts 3 1 1 0 1))
                 (made_calls
                    (ExecuteAny (any_clock (returning 3 fail))
                       (any_action (returning 3 fail))
                       (run_any [returning 1 succeed; panicking 2]
                          (NewCircuitBreaker testConfig)))))
    by (vm_compute; right; left; reflexivity).
  destruct (X15_trip_predicate_argument testConfig
              [returning 1 succeed; panicking 2] (returning 3 fail)
              (mkCounts 3 1 1 0 1) Hl Hi) as (H1 & _ & _ & H4 & _).
  exact (conj Hl (conj Hi (conj H1 H4))).
Defined.

(** ** Simulated sleep *)

Lemma Before_shift (t d now : Time) :
  Before (Add t d) now = Before t (now - d).
Proof.
  unfold Before, Add.
  destruct (Z.ltb_spec (t + d) now), (Z.ltb_spec t (now - d));
    try reflexivity; lia.
Qed.

(** X12.  [pseudoSleep] stands for time passing.  On a guard whose
    deadline is set, a call made at time [t] after [pseudoSleep period]
    returns the same pair, tells the observer the same, and ends in the
    same state with the same counters, as the call made at time
    [t - (-period)] without it, where [-period] is the negation of
    [time.Duration]; the deadline after the first call is that after the
    second, or that moved by [-period] when the call neither set nor
    cleared it.  For every period other than [math.MinInt64] this is the
    call made at time [t + period]; [math.MinInt64] is its own negation
    and stands for 2^63 nanoseconds passing.  On a guard whose deadline is
    zero [pseudoSleep] does nothing. *)
Theorem X12_pseudoSleep_is_time_passing (period : Duration) (clk : Clock)
    (req : unit -> Outcome) (cb : CircuitBreaker) :
  (expiredAt cb <> zeroTime ->
   let slept := Execute clk req (pseudoSleep period cb) in
   let waited :=
     Execute (mkClock (now_entry clk - neg64 period) (now_outcome clk))
             req cb in
   ret slept = ret waited /\
   state (after slept) = state (after waited) /\
   counts (after slept) = counts (after waited) /\
   notified (calls slept) = notified (calls waited) /\
   (expiredAt (after slept) = expiredAt (after waited) \/
    expiredAt (after slept) = expiredAt (after waited) + neg64 period)) /\
  (- two63 < period < two63 ->
   now_entry clk - neg64 period = now_entry clk + period) /\
  (period = - two63 ->
   now_entry clk - neg64 period = now_entry clk + two63) /\
  (expiredAt cb = zeroTime -> pseudoSleep period cb = cb).
Proof.
  split; [|split; [|split]].
  - intro Hnz. cbv zeta.
    assert (Z0 : IsZero (expiredAt cb) = false).
    { unfold IsZero. now apply Z.eqb_neq. }
    unfold pseudoSleep. rewrite Z0. simpl.
    unfold Execute, checkExpiry, admission.
    destruct cb as [nm th tm rt hook st cn ex]; simpl.
    rewrite Before_shift.
    destruct (req tt) as [result [e|]], st; simpl; split_guard_cases;
      (split; [reflexivity|]); (split; [reflexivity|]);
      (split; [reflexivity|]);
      (split; [destruct hook; reflexivity|]);
      solve [left; reflexivity | right; reflexivity].
  - intro H. rewrite (neg64_small period H). lia.
  - intros ->. change (neg64 (- two63)) with (- two63). lia.
  - intro Hz. unfold pseudoSleep, IsZero. rewrite Hz. reflexivity.
Qed.

Lemma X12_pseudoSleep_is_time_passing_witness :
  let slept :=
    Execute (mkClock 13 14) succeed (pseudoSleep (60 * Second) tripped) in
  let waited := Execute (mkClock (13 + 60 * Second) 14) succeed tripped in
  expiredAt tripped <> zeroTime /\
  - two63 < 60 * Second < two63 /\
  13 - neg64 (60 * Second) = 13 + 60 * Second /\
  ret slept = (Nil, None) /\ ret slept = ret waited /\
  state (after slept) = StateHalfOpen /\
  state (after slept) = state (after waited) /\
  counts (after slept) = counts (after waited).
Proof.
  assert (Hnz : expiredAt tripped <> zeroTime) by (vm_compute; discriminate).
  assert (Hp : - two63 < 60 * Second < two63) by (vm_compute; split; reflexivity).
  destruct (X12_pseudoSleep_is_time_passing (60 * Second) (mkClock 13 14)
              succeed tripped) as (H & K & _).
  destruct (H Hnz) as (H1 & H2 & H3 & _).
  exact (conj Hnz (conj Hp (conj (K Hp) (conj eq_refl (conj H1
           (conj eq_refl (conj H2 H3))))))).
Defined.
